(** * react-uwp widgets: Slider, CommandBar and Image

    A shallow embedding of the presentation logic of three React
    components and the properties their specification states about them.

    - [Js]         : the fragment of JavaScript values the components use
                     (numbers, truthiness, plain objects, [Object.assign]).
    - [React]      : a component instance and [setState].
    - [Slider]     : [src/Slider/index.tsx].
    - [CommandBar] : the command bar component.
    - [Image]      : [components/Image/index.tsx].

    [setState] is modelled as a queue of pending updates that is applied
    when the running handler returns; direct writes to [this.state] act
    on the committed state at once. *)

From Stdlib Require Import QArith Qminmax Lqa.
From stdpp Require Import gmap strings list.

Set Default Proof Using "Type".
Local Open Scope string_scope.

(* ===================================================================== *)
(** * JavaScript values *)
(* ===================================================================== *)

Module Js.

(** A JavaScript number.  Finite values are exact rationals: rounding,
    overflow and the sign of zero are not represented, so a statement
    about a computed finite value speaks of the exact value that the
    double approximates.  Division by zero and the arithmetic of the
    three special values follow IEEE 754. *)
Inductive number : Type :=
| Fin (q : Q)
| PInf
| NInf
| NaN.

Definition num_of_Z (z : Z) : number := Fin (inject_Z z).

(** Equality of numbers as values (rationals up to [Qeq]). *)
Definition num_eq (a b : number) : Prop :=
  match a, b with
  | Fin x, Fin y => (x == y)%Q
  | PInf, PInf | NInf, NInf | NaN, NaN => True
  | _, _ => False
  end.

(** [a <= b] on finite numbers; used only in statements. *)
Definition num_le (a b : number) : Prop :=
  match a, b with
  | Fin x, Fin y => (x <= y)%Q
  | _, _ => False
  end.

Definition nneg (a : number) : number :=
  match a with
  | Fin x => Fin (- x)
  | PInf => NInf
  | NInf => PInf
  | NaN => NaN
  end.

(** [a + b] *)
Definition nadd (a b : number) : number :=
  match a, b with
  | NaN, _ | _, NaN => NaN
  | Fin x, Fin y => Fin (x + y)
  | PInf, NInf | NInf, PInf => NaN
  | PInf, _ | _, PInf => PInf
  | NInf, _ | _, NInf => NInf
  end.

(** [a - b] *)
Definition nsub (a b : number) : number := nadd a (nneg b).

(** The infinity carrying the sign of [x * s], [NaN] when [x] is zero. *)
Definition signed_inf (x : Q) (positive : bool) : number :=
  match (x ?= 0)%Q with
  | Eq => NaN
  | Gt => if positive then PInf else NInf
  | Lt => if positive then NInf else PInf
  end.

(** [a * b] *)
Definition nmul (a b : number) : number :=
  match a, b with
  | NaN, _ | _, NaN => NaN
  | Fin x, Fin y => Fin (x * y)
  | Fin x, PInf | PInf, Fin x => signed_inf x true
  | Fin x, NInf | NInf, Fin x => signed_inf x false
  | PInf, PInf | NInf, NInf => PInf
  | PInf, NInf | NInf, PInf => NInf
  end.

(** [a / b]: a finite non-zero value over zero is an infinity, zero
    over zero is [NaN], a finite value over an infinity is zero. *)
Definition ndiv (a b : number) : number :=
  match a, b with
  | NaN, _ | _, NaN => NaN
  | Fin x, Fin y =>
      match (y ?= 0)%Q with
      | Eq => signed_inf x true
      | _ => Fin (x / y)
      end
  | Fin _, PInf | Fin _, NInf => Fin 0
  | PInf, Fin y => if Qle_bool 0 y then PInf else NInf
  | NInf, Fin y => if Qle_bool 0 y then NInf else PInf
  | PInf, PInf | PInf, NInf | NInf, PInf | NInf, NInf => NaN
  end.

(** [a < b]; every comparison with [NaN] is false. *)
Definition nlt (a b : number) : bool :=
  match a, b with
  | NaN, _ | _, NaN => false
  | Fin x, Fin y => match (x ?= y)%Q with Lt => true | _ => false end
  | NInf, NInf | PInf, _ | _, NInf => false
  | NInf, _ | _, PInf => true
  end.

(** [a > b] *)
Definition ngt (a b : number) : bool := nlt b a.

(** [Math.max(a, b)] and [Math.min(a, b)]. *)
Definition nmax (a b : number) : number :=
  match a, b with
  | NaN, _ | _, NaN => NaN
  | _, _ => if nlt a b then b else a
  end.

Definition nmin (a b : number) : number :=
  match a, b with
  | NaN, _ | _, NaN => NaN
  | _, _ => if nlt b a then b else a
  end.

(** Truthiness of the values that appear in conditions. *)
Definition truthy_bool (b : option bool) : bool := default false b.

Definition truthy_string (s : option string) : bool :=
  match s with
  | None | Some "" => false
  | Some _ => true
  end.

(** [a !== b] on [boolean | undefined]. *)
Definition strict_neq (a b : option bool) : bool :=
  negb (bool_decide (a = b)).

(** Values stored in style objects.  A template string
    [`translateX(${n}%)`] is kept as the number it was built from. *)
Inductive value : Type :=
| VUndefined
| VString (s : string)
| VTranslateX (percent : number).

(** A plain object: its own enumerable properties. *)
Abbreviation object := (gmap string value).

(** [o.k]: reading an absent property gives [undefined]. *)
Definition get (o : object) (k : string) : value :=
  default VUndefined (o !! k).

(** [{ ...base, ...over }]: later properties win. *)
Definition spread (base over : object) : object := over ∪ base.

(** [Object.assign(target, source)] *)
Definition assign (target source : object) : object := source ∪ target.

Definition is_undefined (v : value) : bool :=
  match v with VUndefined => true | _ => false end.

(** The [style] of an element is a [CSSStyleDeclaration], not a plain
    object.  Its CSS properties are accessors inherited from the
    prototype and not own enumerable properties, so [{ ...style }] copies
    none of them; and assigning [undefined] to one of them is ignored.
    An [object] standing for a style holds the CSS properties that are
    set. *)
Definition styleSpread (style : object) : object := ∅.

(** [Object.assign(style, source)] on a [CSSStyleDeclaration]: the
    properties of [source] that are not [undefined] are set, the others
    leave the declaration as it is. *)
Definition styleAssign (style source : object) : object :=
  filter (λ kv : string * value, is_undefined kv.2 = false) source ∪ style.

End Js.

(* ===================================================================== *)
(** * Component instances *)
(* ===================================================================== *)

Module React.

(** A mounted component: [this.props], [this.state] and the partial
    states handed to [setState] that are not merged yet. *)
Record instance (P S U : Type) : Type := mkInstance {
  props : P;
  state : S;
  pending : list U
}.

Arguments mkInstance {P S U} _ _ _.
Arguments props {P S U} _.
Arguments state {P S U} _.
Arguments pending {P S U} _.

(** [this.setState(u)] *)
Definition setState {P S U} (u : U) (c : instance P S U) : instance P S U :=
  mkInstance (props c) (state c) (pending c ++ [u]).

(** A direct write to [this.state]. *)
Definition writeState {P S U} (s : S) (c : instance P S U) : instance P S U :=
  mkInstance (props c) s (pending c).

(** The pending updates are merged into the state, in order. *)
Definition flush {P S U} (reduce : S -> U -> S) (c : instance P S U)
    : instance P S U :=
  mkInstance (props c) (foldl reduce (state c) (pending c)) [].

(** The parent hands new props: [componentWillReceiveProps] runs with
    the old props still in place, its updates are merged, and the new
    props are installed for the render that follows. *)
Definition receiveProps {P S U} (reduce : S -> U -> S)
    (componentWillReceiveProps : P -> instance P S U -> instance P S U)
    (nextProps : P) (c : instance P S U) : instance P S U :=
  let c := flush reduce (componentWillReceiveProps nextProps c) in
  mkInstance nextProps (state c) (pending c).

End React.

(* ===================================================================== *)
(** * Slider *)
(* ===================================================================== *)

Module Slider.
Import Js.

(** The props the handlers read, as the caller passes them
    ([None] when omitted). *)
Record DataProps : Type := mkDataProps {
  minValue : option number;
  maxValue : option number;
  initValue : option number;
  barBackground : option string;
  barBackgroundImage : option string
}.

(** [this.props]: the caller's props completed by [defaultProps]. *)
Record SliderProps : Type := mkSliderProps {
  p_minValue : number;
  p_maxValue : number;
  p_initValue : number;
  p_barBackground : option string;
  p_barBackgroundImage : option string
}.

Definition defaultProps (d : DataProps) : SliderProps :=
  {| p_minValue := default (num_of_Z 0) (minValue d);
     p_maxValue := default (num_of_Z 100) (maxValue d);
     p_initValue := default (num_of_Z 50) (initValue d);
     p_barBackground := barBackground d;
     p_barBackgroundImage := barBackgroundImage d |}.

Record SliderState : Type := mkSliderState {
  currValue : number;
  valueRatio : number;
  hovered : option bool;
  dragging : option bool
}.

(** A partial state handed to [setState]. *)
Inductive Update : Type :=
| SetHovered (b : bool)
| SetDragging (b : bool).

Definition reduce (s : SliderState) (u : Update) : SliderState :=
  match u with
  | SetHovered b => mkSliderState (currValue s) (valueRatio s) (Some b) (dragging s)
  | SetDragging b => mkSliderState (currValue s) (valueRatio s) (hovered s) (Some b)
  end.

(** Calls made through the two callback props. *)
Inductive Call : Type :=
| OnChangeValue (value : number)
| OnChangeValueRatio (ratio : number).

(** The functions the component hands to [window.addEventListener];
    [Foreign] stands for the listeners of other code. *)
Inductive Handler : Type :=
| SetValueByEvent
| HandelMouseUp
| Foreign (id : nat).

#[export] Instance Handler_eq_dec : EqDecision Handler.
Proof. solve_decision. Defined.

Definition Listener : Type := string * Handler.

(** [addEventListener] ignores a listener that is already registered. *)
Definition addEventListener (l : Listener) (ls : list Listener) : list Listener :=
  if bool_decide (l ∈ ls) then ls else ls ++ [l].

Definition removeEventListener (l : Listener) (ls : list Listener) : list Listener :=
  filter (λ x, x ≠ l) ls.

(** The part of [getBoundingClientRect()] that is read. *)
Record DOMRect : Type := mkDOMRect {
  left : number;
  width : number
}.

Record MouseEvent : Type := mkMouseEvent {
  type : string;
  clientX : number
}.

Abbreviation Component := (React.instance SliderProps SliderState Update).

(** The component instance together with the part of the page it
    touches. *)
Record World : Type := mkWorld {
  self : Component;
  originBodyStyle : object;
  bodyStyle : object;
  windowListeners : list Listener;
  rootElm : DOMRect;
  controllerElm : DOMRect;
  barElmStyle : object;
  controllerWrapperElmStyle : object;
  calls : list Call
}.

Definition props (w : World) : SliderProps := React.props (self w).
Definition state (w : World) : SliderState := React.state (self w).

Definition with_self (c : Component) (w : World) : World :=
  mkWorld c (originBodyStyle w) (bodyStyle w) (windowListeners w) (rootElm w)
    (controllerElm w) (barElmStyle w) (controllerWrapperElmStyle w) (calls w).

Definition with_bodyStyle (b : object) (w : World) : World :=
  mkWorld (self w) (originBodyStyle w) b (windowListeners w) (rootElm w)
    (controllerElm w) (barElmStyle w) (controllerWrapperElmStyle w) (calls w).

Definition with_windowListeners (ls : list Listener) (w : World) : World :=
  mkWorld (self w) (originBodyStyle w) (bodyStyle w) ls (rootElm w)
    (controllerElm w) (barElmStyle w) (controllerWrapperElmStyle w) (calls w).

Definition with_barElmStyle (b : object) (w : World) : World :=
  mkWorld (self w) (originBodyStyle w) (bodyStyle w) (windowListeners w)
    (rootElm w) (controllerElm w) b (controllerWrapperElmStyle w) (calls w).

Definition with_controllerWrapperElmStyle (b : object) (w : World) : World :=
  mkWorld (self w) (originBodyStyle w) (bodyStyle w) (windowListeners w)
    (rootElm w) (controllerElm w) (barElmStyle w) b (calls w).

Definition with_calls (c : list Call) (w : World) : World :=
  mkWorld (self w) (originBodyStyle w) (bodyStyle w) (windowListeners w)
    (rootElm w) (controllerElm w) (barElmStyle w) (controllerWrapperElmStyle w) c.

Definition setState (u : Update) (w : World) : World :=
  with_self (React.setState u (self w)) w.

Definition flush (w : World) : World :=
  with_self (React.flush reduce (self w)) w.

(** Field initialiser of the class:
    [[
      state = { currValue: this.props.initValue,
                valueRatio: this.props.initValue
                            / (this.props.maxValue - this.props.minValue) };
    ]] *)
Definition initialState (p : SliderProps) : SliderState :=
  {| currValue := p_initValue p;
     valueRatio := ndiv (p_initValue p) (nsub (p_maxValue p) (p_minValue p));
     hovered := None;
     dragging := None |}.

(** A new instance on a page whose body style is [body]; the other
    initialiser is [originBodyStyle = { ...document.body.style }], a
    spread of a [CSSStyleDeclaration]. *)
Definition construct (d : DataProps) (body : object) (ls : list Listener)
    (root controller : DOMRect) : World :=
  let p := defaultProps d in
  {| self := React.mkInstance p (initialState p) [];
     originBodyStyle := styleSpread body;
     bodyStyle := body;
     windowListeners := ls;
     rootElm := root;
     controllerElm := controller;
     barElmStyle := ∅;
     controllerWrapperElmStyle := ∅;
     calls := [] |}.

Definition handelMouseEnter (w : World) : World := setState (SetHovered true) w.

Definition handelMouseLeave (w : World) : World := setState (SetHovered false) w.

(** [valueRatio < 0 ? 0 : (valueRatio > 1 ? 1 : valueRatio)] *)
Definition clampRatio (valueRatio : number) : number :=
  if nlt valueRatio (num_of_Z 0) then num_of_Z 0
  else if ngt valueRatio (num_of_Z 1) then num_of_Z 1
  else valueRatio.

(** The four spellings of [transform] written to an element. *)
Definition transformStyle (t : value) : object :=
  <["transform" := t]> (<["webKitTransform" := t]>
    (<["msTransform" := t]> (<["mozTransform" := t]> ∅))).

Definition setValueByEvent (e : MouseEvent) (w : World) : World :=
  let w :=
    if bool_decide (type e = "mousemove") && negb (truthy_bool (dragging (state w)))
    then setState (SetDragging true) w else w in
  let maxValue := p_maxValue (props w) in
  let minValue := p_minValue (props w) in
  let useCustomBackground :=
    truthy_string (p_barBackground (props w))
    || truthy_string (p_barBackgroundImage (props w)) in
  let left := left (rootElm w) in
  let width := width (rootElm w) in
  let mouseLeft := clientX e in
  let controllerWidth := Slider.width (controllerElm w) in
  let valueRatio := ndiv (nsub mouseLeft left) (nsub width controllerWidth) in
  let valueRatio := clampRatio valueRatio in
  let currValue := nadd minValue (nmul (nsub maxValue minValue) valueRatio) in
  let w :=
    with_self
      (React.writeState
         (mkSliderState currValue valueRatio (hovered (state w)) (dragging (state w)))
         (self w)) w in
  let w :=
    if negb useCustomBackground then
      let barTransform :=
        VTranslateX (nmul (nsub valueRatio (num_of_Z 1)) (num_of_Z 100)) in
      with_barElmStyle (assign (barElmStyle w) (transformStyle barTransform)) w
    else w in
  let transform := VTranslateX (nmul valueRatio (num_of_Z 100)) in
  let w :=
    with_controllerWrapperElmStyle
      (assign (controllerWrapperElmStyle w) (transformStyle transform)) w in
  with_calls (calls w ++ [OnChangeValue currValue]) w.

Definition handelOnClick (e : MouseEvent) (w : World) : World :=
  setValueByEvent e w.

(** The literal assigned to [document.body.style] on pointer-down. *)
Definition dragOverride : object :=
  <["userSelect" := VString "none"]> (<["msUserSelect" := VString "none"]>
    (<["webkitUserSelect" := VString "none"]> (<["cursor" := VString "default"]> ∅))).

(** [{ userSelect: void 0, msUserSelect: void 0, webkitUserSelect: void 0,
       cursor: void 0 }] *)
Definition dragReset : object :=
  <["userSelect" := VUndefined]> (<["msUserSelect" := VUndefined]>
    (<["webkitUserSelect" := VUndefined]> (<["cursor" := VUndefined]> ∅))).

(** The properties of the body style that a drag overrides. *)
Definition dragKeys : list string :=
  ["userSelect"; "msUserSelect"; "webkitUserSelect"; "cursor"].

(** The object literal is a plain object (with the copy spread into
    it); its target [document.body.style] is a [CSSStyleDeclaration]. *)
Definition handelMouseUp (e : MouseEvent) (w : World) : World :=
  let w :=
    with_bodyStyle
      (styleAssign (bodyStyle w) (spread dragReset (originBodyStyle w))) w in
  let w := setState (SetDragging false) w in
  let w :=
    with_windowListeners
      (removeEventListener ("mousemove", SetValueByEvent) (windowListeners w)) w in
  with_windowListeners
    (removeEventListener ("mouseup", HandelMouseUp) (windowListeners w)) w.

Definition handelMouseDown (e : MouseEvent) (w : World) : World :=
  let w := with_bodyStyle (assign (bodyStyle w) dragOverride) w in
  let w :=
    with_windowListeners
      (addEventListener ("mousemove", SetValueByEvent) (windowListeners w)) w in
  let w :=
    with_windowListeners
      (addEventListener ("mouseup", HandelMouseUp) (windowListeners w)) w in
  setValueByEvent e w.

(** One invocation of a handler of the component. *)
Inductive Action : Type :=
| MouseEnter
| MouseLeave
| OnClick (e : MouseEvent)
| MouseDown (e : MouseEvent)
| MouseUp (e : MouseEvent)
| ValueByEvent (e : MouseEvent).

(** The handler runs, then the state updates it queued are merged. *)
Definition invoke (a : Action) (w : World) : World :=
  flush
    match a with
    | MouseEnter => handelMouseEnter w
    | MouseLeave => handelMouseLeave w
    | OnClick e => handelOnClick e w
    | MouseDown e => handelMouseDown e w
    | MouseUp e => handelMouseUp e w
    | ValueByEvent e => setValueByEvent e w
    end.

Definition run (actions : list Action) (w : World) : World :=
  foldl (λ w a, invoke a w) w actions.

(** Events as the page delivers them.  [render] binds [onMouseEnter],
    [onMouseLeave], [onMouseDown] and [onMouseUp] on the root element;
    a [mousemove] or [mouseup] anywhere reaches the listeners that are
    registered on [window] at that time. *)
Inductive DomEvent : Type :=
| PointerEnter
| PointerLeave
| PointerDown (e : MouseEvent)
| PointerMove (e : MouseEvent)
| PointerUp (onRoot : bool) (e : MouseEvent).

Definition registered (l : Listener) (w : World) : bool :=
  bool_decide (l ∈ windowListeners w).

Definition deliver (ev : DomEvent) (w : World) : World :=
  match ev with
  | PointerEnter => invoke MouseEnter w
  | PointerLeave => invoke MouseLeave w
  | PointerDown e => invoke (MouseDown e) w
  | PointerMove e =>
      if registered ("mousemove", SetValueByEvent) w
      then invoke (ValueByEvent e) w else w
  | PointerUp onRoot e =>
      let w := if onRoot then invoke (MouseUp e) w else w in
      if registered ("mouseup", HandelMouseUp) w
      then invoke (MouseUp e) w else w
  end.

Definition deliverAll (evs : list DomEvent) (w : World) : World :=
  foldl (λ w ev, deliver ev w) w evs.

(** The callback calls one handler invocation makes. *)
Definition reported (a : Action) (w : World) : list Call :=
  match a with
  | MouseEnter | MouseLeave | MouseUp _ => []
  | OnClick _ | MouseDown _ | ValueByEvent _ =>
      [OnChangeValue (currValue (state (invoke a w)))]
  end.

(** One drag: pointer-down on the root, moves, and a pointer-up on the
    root or elsewhere. *)
Definition dragSession (down : MouseEvent) (moves : list MouseEvent)
    (onRoot : bool) (up : MouseEvent) : list DomEvent :=
  PointerDown down :: (map PointerMove moves ++ [PointerUp onRoot up])%list.

(** The clamp of the specification, [clamp(v, lo, hi)], through
    [Math.max] and [Math.min]. *)
Definition clamp_spec (v lo hi : number) : number := nmin (nmax v lo) hi.

End Slider.

(* ===================================================================== *)
(** * CommandBar *)
(* ===================================================================== *)

Module CommandBar.
Import Js.

Inductive LabelPosition : Type := LabelRight | LabelBottom | LabelCollapsed.

Inductive FlowDirection : Type := RowReverse | Row.

Inductive VerticalPosition : Type := Top | Bottom.

#[export] Instance LabelPosition_eq_dec : EqDecision LabelPosition.
Proof. solve_decision. Defined.

#[export] Instance VerticalPosition_eq_dec : EqDecision VerticalPosition.
Proof. solve_decision. Defined.

#[export] Instance FlowDirection_eq_dec : EqDecision FlowDirection.
Proof. solve_decision. Defined.

(** What [child.type] is compared with. *)
Inductive ElementType : Type :=
| AppBarButton
| AppBarSeparator
| OtherElement (name : string).

(** The props as the caller passes them ([None] when omitted). *)
Record DataProps : Type := mkDataProps {
  content : option string;
  contentNode : option string;
  primaryCommands : option (list ElementType);
  secondaryCommands : option (list ElementType);
  labelPosition : option LabelPosition;
  expanded : option bool;
  flowDirection : option FlowDirection;
  isMinimal : option bool;
  verticalPosition : option VerticalPosition
}.

(** [this.props]: [defaultProps] gives [labelPosition: "bottom"] and
    [verticalPosition: "top"]. *)
Record CommandBarProps : Type := mkCommandBarProps {
  p_content : option string;
  p_contentNode : option string;
  p_primaryCommands : option (list ElementType);
  p_secondaryCommands : option (list ElementType);
  p_labelPosition : LabelPosition;
  p_expanded : option bool;
  p_flowDirection : option FlowDirection;
  p_isMinimal : option bool;
  p_verticalPosition : VerticalPosition
}.

Definition defaultProps (d : DataProps) : CommandBarProps :=
  {| p_content := content d;
     p_contentNode := contentNode d;
     p_primaryCommands := primaryCommands d;
     p_secondaryCommands := secondaryCommands d;
     p_labelPosition := default LabelBottom (labelPosition d);
     p_expanded := expanded d;
     p_flowDirection := flowDirection d;
     p_isMinimal := isMinimal d;
     p_verticalPosition := default Top (verticalPosition d) |}.

Record CommandBarState : Type := mkCommandBarState {
  currExpanded : option bool
}.

(** What is handed to [setState]: an object [{ currExpanded }] or the
    function [prevState => ({ currExpanded: !prevState.currExpanded })]. *)
Inductive Update : Type :=
| SetCurrExpanded (v : option bool)
| NegateCurrExpanded.

Definition reduce (s : CommandBarState) (u : Update) : CommandBarState :=
  match u with
  | SetCurrExpanded v => mkCommandBarState v
  | NegateCurrExpanded => mkCommandBarState (Some (negb (truthy_bool (currExpanded s))))
  end.

Abbreviation Component := (React.instance CommandBarProps CommandBarState Update).

(** [state = { currExpanded: this.props.expanded }] *)
Definition construct (d : DataProps) : Component :=
  let p := defaultProps d in
  React.mkInstance p (mkCommandBarState (p_expanded p)) [].

Definition componentWillReceiveProps (nextProps : CommandBarProps) (c : Component)
    : Component :=
  let expanded := p_expanded nextProps in
  if strict_neq (currExpanded (React.state c)) expanded
  then React.setState (SetCurrExpanded expanded) c
  else c.

(** The argument of [toggleExpanded]: a boolean, or anything else (no
    argument, or the click event when used as an [onClick] handler). *)
Inductive Argument : Type :=
| Boolean (b : bool)
| NotBoolean.

Definition toggleExpanded (currExpanded : Argument) (c : Component) : Component :=
  match currExpanded with
  | Boolean b =>
      if strict_neq (Some b) (CommandBar.currExpanded (React.state c))
      then React.setState (SetCurrExpanded (Some b)) c
      else c
  | NotBoolean => React.setState NegateCurrExpanded c
  end.

(** What happens to a mounted bar. *)
Inductive Step : Type :=
| Toggle (a : Argument)
| NewProps (d : DataProps).

Definition step (s : Step) (c : Component) : Component :=
  match s with
  | Toggle a => React.flush reduce (toggleExpanded a c)
  | NewProps d =>
      React.receiveProps reduce componentWillReceiveProps (defaultProps d) c
  end.

Definition steps (l : list Step) (c : Component) : Component :=
  foldl (λ c s, step s c) c l.

(** The lengths [getStyles] computes for the entries that take no
    caller override: [root.height], [moreLegacy.height] and the anchors
    and opacity of [secondaryCommands]; [None] stands for [undefined] in
    the two anchors.  ([wrapper] and [content] spread the caller's
    [style] and [contentStyle] over their computed heights and are not
    part of the record.) *)
Record Styles : Type := mkStyles {
  root_height : Z;
  moreLegacy_height : Z;
  secondaryCommands_top : option Z;
  secondaryCommands_bottom : option Z;
  secondaryCommands_opacity : Z
}.

Definition getStyles (commandBar : Component) : Styles :=
  let labelPosition := p_labelPosition (React.props commandBar) in
  let primaryCommands := p_primaryCommands (React.props commandBar) in
  let isMinimal := truthy_bool (p_isMinimal (React.props commandBar)) in
  let verticalPosition := p_verticalPosition (React.props commandBar) in
  let currExpanded := truthy_bool (currExpanded (React.state commandBar)) in
  let inBottom := negb (bool_decide (verticalPosition = Top)) in
  let notChangeHeight := negb (bool_decide (labelPosition = LabelBottom)) in
  let defaultHeight := if isMinimal then 24%Z else 48%Z in
  let expandedHeight := 72%Z in
  let changedHeight :=
    if isMinimal then
      if currExpanded then (if notChangeHeight then 48%Z else 72%Z) else defaultHeight
    else
      if currExpanded && negb notChangeHeight && bool_decide (is_Some primaryCommands)
      then expandedHeight else defaultHeight in
  {| root_height := changedHeight;
     moreLegacy_height := changedHeight;
     secondaryCommands_top := if inBottom then None else Some changedHeight;
     secondaryCommands_bottom := if inBottom then Some changedHeight else None;
     secondaryCommands_opacity := if currExpanded then 1%Z else 0%Z |}.

(** The inputs the specification names for the layout height. *)
Definition heightInputs (c : Component) : bool * LabelPosition * bool * bool :=
  (truthy_bool (p_isMinimal (React.props c)),
   p_labelPosition (React.props c),
   truthy_bool (currExpanded (React.state c)),
   bool_decide (is_Some (p_primaryCommands (React.props c)))).

End CommandBar.

(* ===================================================================== *)
(** * Image *)
(* ===================================================================== *)

Module Image.
Import Js.

(** A node supplied by the caller; the empty text is falsy. *)
Inductive ReactNode : Type :=
| NodeText (s : string)
| NodeElement (name : string).

Definition truthy_node (n : option ReactNode) : bool :=
  match n with
  | None | Some (NodeText "") => false
  | Some _ => true
  end.

(** What is left of the props after the lazy-load options are taken
    out ([...attributes]), as far as [render] reads it. *)
Record Attributes : Type := mkAttributes {
  src : option string;
  height : option number;
  placeholder : option ReactNode;
  style : object
}.

Record ImageProps : Type := mkImageProps {
  isLazyLoad : option bool;
  useDivContainer : option bool;
  once : option bool;
  scroll : option bool;
  offset : option number;
  overflow : option bool;
  resize : option bool;
  debounce : option number;
  throttle : option number;
  attributes : Attributes
}.

(** [defaultProps] fills the props the caller left [undefined]. *)
Definition defaultProps (p : ImageProps) : ImageProps :=
  {| isLazyLoad := Some (default true (isLazyLoad p));
     useDivContainer := Some (default false (useDivContainer p));
     once := Some (default false (once p));
     scroll := Some (default true (scroll p));
     offset := Some (default (num_of_Z 0) (offset p));
     overflow := Some (default false (overflow p));
     resize := resize p;
     debounce := debounce p;
     throttle := Some (default (num_of_Z 60) (throttle p));
     attributes := attributes p |}.

Record ImageState : Type := mkImageState {
  showEmptyImage : bool
}.

Inductive Update : Type :=
| SetShowEmptyImage (b : bool).

Definition reduce (s : ImageState) (u : Update) : ImageState :=
  match u with
  | SetShowEmptyImage b => mkImageState b
  end.

Abbreviation Component := (React.instance ImageProps ImageState Update).

(** [state = { showEmptyImage: false }] *)
Definition construct (p : ImageProps) : Component :=
  React.mkInstance (defaultProps p) (mkImageState false) [].

Definition errorHandler (c : Component) : Component :=
  React.setState (SetShowEmptyImage true) c.

(** The props handed to the lazy-visibility collaborator. *)
Record LazyLoadProps (N : Type) : Type := mkLazyLoadProps {
  ll_once : option bool;
  ll_scroll : option bool;
  ll_offset : option number;
  ll_overflow : option bool;
  ll_resize : option bool;
  ll_debounce : option number;
  ll_throttle : option number;
  ll_height : option number;
  ll_placeholder : option N
}.

Arguments mkLazyLoadProps {N} _ _ _ _ _ _ _ _ _.
Arguments ll_once {N} _.
Arguments ll_scroll {N} _.
Arguments ll_offset {N} _.
Arguments ll_overflow {N} _.
Arguments ll_resize {N} _.
Arguments ll_debounce {N} _.
Arguments ll_throttle {N} _.
Arguments ll_height {N} _.
Arguments ll_placeholder {N} _.

(** A JSX attribute written after a spread replaces the spread's value. *)
Definition set_once {N} (v : option bool) (l : LazyLoadProps N) : LazyLoadProps N :=
  mkLazyLoadProps v (ll_scroll l) (ll_offset l) (ll_overflow l) (ll_resize l)
    (ll_debounce l) (ll_throttle l) (ll_height l) (ll_placeholder l).

Definition set_offset {N} (v : option number) (l : LazyLoadProps N) : LazyLoadProps N :=
  mkLazyLoadProps (ll_once l) (ll_scroll l) v (ll_overflow l) (ll_resize l)
    (ll_debounce l) (ll_throttle l) (ll_height l) (ll_placeholder l).

Definition set_height {N} (v : option number) (l : LazyLoadProps N) : LazyLoadProps N :=
  mkLazyLoadProps (ll_once l) (ll_scroll l) (ll_offset l) (ll_overflow l)
    (ll_resize l) (ll_debounce l) (ll_throttle l) v (ll_placeholder l).

Definition set_placeholder {N} (v : option N) (l : LazyLoadProps N) : LazyLoadProps N :=
  mkLazyLoadProps (ll_once l) (ll_scroll l) (ll_offset l) (ll_overflow l)
    (ll_resize l) (ll_debounce l) (ll_throttle l) (ll_height l) v.

(** [React.createElement] completes the props of an element with the
    [defaultProps] of its type; those of the lazy-load component are
    [once: false], [offset: 0], [overflow: false], [resize: false] and
    [scroll: true]. *)
Definition lazyLoadDefaults {N} (l : LazyLoadProps N) : LazyLoadProps N :=
  mkLazyLoadProps
    (Some (default false (ll_once l)))
    (Some (default true (ll_scroll l)))
    (Some (default (num_of_Z 0) (ll_offset l)))
    (Some (default false (ll_overflow l)))
    (Some (default false (ll_resize l)))
    (ll_debounce l) (ll_throttle l) (ll_height l) (ll_placeholder l).

(** What [render] returns. *)
#[local] Set Warnings "-register-all".
Inductive Rendered : Type :=
| Null
| CallerNode (n : ReactNode)
| Placeholder (a : Attributes)
| Img (a : Attributes)
| Div (a : Attributes) (style : object)
| ReactLazyLoad (p : LazyLoadProps Rendered) (child : Rendered).

(** [`url(${src}) no-repeat center center / contain`]; an absent [src]
    prints as [undefined]. *)
Definition backgroundOf (src : option string) : string :=
  "url(" ++ default "undefined" src ++ ") no-repeat center center / contain".

(** [attributes.placeholder || <Placeholder {...attributes} />] *)
Definition placeholderOf (attributes : Attributes) : Rendered :=
  match placeholder attributes with
  | Some n => if truthy_node (Some n) then CallerNode n else Placeholder attributes
  | None => Placeholder attributes
  end.

(** The inner component [ImageOrDiv]; the [img] carries
    [onError={this.errorHandler}]. *)
Definition ImageOrDiv (p : ImageProps) : Rendered :=
  let attributes := attributes p in
  if truthy_bool (useDivContainer p)
  then Div attributes
         (spread {["background" := VString (backgroundOf (src attributes))]}
            (style attributes))
  else Img attributes.

Definition render (c : Component) : Rendered :=
  let p := React.props c in
  let attributes := attributes p in
  let placeholder := placeholderOf attributes in
  let ImageOrDiv := ImageOrDiv p in
  if negb (truthy_string (src attributes)) || showEmptyImage (React.state c)
  then (if truthy_bool (isLazyLoad p) then placeholder else Null)
  else if truthy_bool (isLazyLoad p) then
    ReactLazyLoad
      (lazyLoadDefaults
         (set_placeholder (Some placeholder)
            (set_height (height attributes)
               (set_offset (offset p)
                  (set_once (Some false)
                     (mkLazyLoadProps (once p) (scroll p) (offset p) (overflow p)
                        (resize p) (debounce p) (throttle p) None None))))))
      ImageOrDiv
  else ImageOrDiv.

(** What happens to a mounted image: the [img] element reports a load
    failure, or the parent hands new props.  The class has no
    [componentWillReceiveProps]. *)
Inductive Step : Type :=
| LoadError
| NewProps (p : ImageProps).

Definition step (s : Step) (c : Component) : Component :=
  match s with
  | LoadError => React.flush reduce (errorHandler c)
  | NewProps p => React.receiveProps reduce (λ _ c, c) (defaultProps p) c
  end.

Definition steps (l : list Step) (c : Component) : Component :=
  foldl (λ c s, step s c) c l.

(** The same props with another value of the caller's [once]. *)
Definition with_once (v : option bool) (p : ImageProps) : ImageProps :=
  mkImageProps (isLazyLoad p) (useDivContainer p) v (scroll p) (offset p)
    (overflow p) (resize p) (debounce p) (throttle p) (attributes p).

End Image.

(* ===================================================================== *)
(** * Slider: styles and the value invariant *)
(* ===================================================================== *)

Module SliderView.
Import Js Slider.

(** The entries of [getStyles] that depend on the state and have no
    caller override: [bar.transform], [bar.transition] and
    [controllerWrapper.transform], as handed to [prepareStyles]. *)
Record Styles : Type := mkStyles {
  bar_transform : value;
  bar_transition : value;
  controllerWrapper_transform : value
}.

Definition getStyles (slider : World) : Styles :=
  let barBackground := p_barBackground (props slider) in
  let barBackgroundImage := p_barBackgroundImage (props slider) in
  let valueRatio := valueRatio (state slider) in
  let dragging := dragging (state slider) in
  let transition :=
    if truthy_bool dragging then VUndefined else VString "all .25s 0s linear" in
  let useCustomBackground :=
    truthy_string barBackground || truthy_string barBackgroundImage in
  {| bar_transform :=
       if useCustomBackground then VUndefined
       else VTranslateX (nmul (nsub valueRatio (num_of_Z 1)) (num_of_Z 100));
     bar_transition := transition;
     controllerWrapper_transform :=
       VTranslateX (nmul valueRatio (num_of_Z 100)) |}.

(** The relation between the two numbers of the state that
    [setValueByEvent] writes. *)
Definition consistent (w : World) : Prop :=
  currValue (state w)
    = nadd (p_minValue (props w))
           (nmul (nsub (p_maxValue (props w)) (p_minValue (props w)))
                 (valueRatio (state w))).

(** The value [setValueByEvent] computes for an event on a given
    instance and page. *)
Definition valueAt (e : MouseEvent) (w : World) : number :=
  currValue (state (setValueByEvent e w)).



End SliderView.

(* ===================================================================== *)
(** * CommandBar: what [render] builds *)
(* ===================================================================== *)

Module CommandBarView.
Import Js CommandBar.

(** [child.type === AppBarButton || child.type === AppBarSeparator] *)
Definition recognized (t : ElementType) : bool :=
  match t with
  | AppBarButton | AppBarSeparator => true
  | OtherElement _ => false
  end.

(** A primary command after [React.cloneElement]: the props the clone
    adds; [pc_style_height = None] stands for [style: void 0]. *)
Record PrimaryCommand : Type := mkPrimaryCommand {
  pc_type : ElementType;
  pc_labelPosition : LabelPosition;
  pc_key : nat;
  pc_style_height : option Z
}.

(** The first child of the commands row; [None] stands for the value
    [true] of [(isMinimal && !currExpanded) || ...], which renders
    nothing.  [React.Children.toArray(undefined)] is the empty array. *)
Definition renderPrimaryCommands (c : Component) : option (list PrimaryCommand) :=
  let labelPosition := p_labelPosition (React.props c) in
  let primaryCommands := p_primaryCommands (React.props c) in
  let isMinimal := truthy_bool (p_isMinimal (React.props c)) in
  let currExpanded := truthy_bool (currExpanded (React.state c)) in
  if isMinimal && negb currExpanded then None
  else
    Some
      (imap
         (λ (index : nat) (child : ElementType),
            mkPrimaryCommand child labelPosition index
              (match child with AppBarSeparator => Some 24%Z | _ => None end))
         (filter (λ child, recognized child = true) (default [] primaryCommands))).

(** The handler a list item carries. *)
Inductive ItemHandler : Type := ToggleExpanded.

(** An entry of the [items] prop of the [ListView]: a separator is
    cloned with [direction: "row"] and becomes
    [{ itemNode, disable: true, style: { padding: "0 8px" } }], anything
    else becomes [{ itemNode, onClick: this.toggleExpanded }]. *)
Record ListItem : Type := mkListItem {
  itemNode : ElementType;
  directionRow : bool;
  disable : bool;
  padded : bool;
  onClick : option ItemHandler
}.

Definition secondaryItem (itemNode : ElementType) : ListItem :=
  match itemNode with
  | AppBarSeparator => mkListItem itemNode true true true None
  | _ => mkListItem itemNode false false false (Some ToggleExpanded)
  end.

(** [secondaryCommands && <ListView items={secondaryCommands.map(...)} />];
    [None] when no list view is rendered. *)
Definition renderSecondaryCommands (c : Component) : option (list ListItem) :=
  match p_secondaryCommands (React.props c) with
  | Some secondaryCommands => Some (map secondaryItem secondaryCommands)
  | None => None
  end.

(** [(content !== void 0 || contentNode !== void 0) &&
     <div>{content || contentNode}</div>]: [None] when no title element
    is rendered, otherwise what the element contains. *)
Definition renderContent (c : Component) : option (option string) :=
  let content := p_content (React.props c) in
  let contentNode := p_contentNode (React.props c) in
  if bool_decide (content ≠ None) || bool_decide (contentNode ≠ None)
  then Some (if truthy_string content then content else contentNode)
  else None.

(** [n] clicks on the overflow button. *)
Definition toggles (n : nat) : list Step := replicate n (Toggle NotBoolean).

End CommandBarView.

(* ===================================================================== *)
(** * Image: variations of the props *)
(* ===================================================================== *)

Module ImageView.
Import Js Image.

(** The same props with another [isLazyLoad]. *)
Definition with_isLazyLoad (v : option bool) (p : ImageProps) : ImageProps :=
  mkImageProps v (useDivContainer p) (once p) (scroll p) (offset p)
    (overflow p) (resize p) (debounce p) (throttle p) (attributes p).

(** Whether what [render] returned shows the image itself. *)
Definition showsImage (r : Rendered) : bool :=
  match r with
  | Img _ | Div _ _ | ReactLazyLoad _ _ => true
  | Null | CallerNode _ | Placeholder _ => false
  end.

End ImageView.

(* ===================================================================== *)
(** * Properties of the Image widget *)
(* ===================================================================== *)

Module ImageSpec.
Import Js Image.

(** Every step leaves no update pending. *)
Lemma image_step_pending (s : Step) (c : Component) : React.pending (step s c) = [].
Proof. destruct s; reflexivity. Qed.

Lemma step_settled (s : Step) (c : Component) :
  React.pending c = [] ->
  showEmptyImage (React.state (step s c)) =
    match s with
    | LoadError => true
    | NewProps _ => showEmptyImage (React.state c)
    end.
Proof.
  intros Hp. destruct s; unfold step, errorHandler, React.receiveProps,
    React.flush, React.setState; cbn; rewrite Hp; reflexivity.
Qed.

(** The failed state is stable for an instance with nothing pending. *)
Lemma showEmptyImage_stable (l : list Step) : forall c : Component,
  React.pending c = [] ->
  showEmptyImage (React.state c) = true ->
  showEmptyImage (React.state (steps l c)) = true.
Proof.
  induction l as [|s l IH]; intros c Hp Ht; [exact Ht|].
  cbn. apply IH; [apply image_step_pending|].
  rewrite (step_settled s c Hp). destruct s; [reflexivity | exact Ht].
Qed.

Lemma image_steps_pending (l : list Step) : forall c : Component,
  React.pending c = [] -> React.pending (steps l c) = [].
Proof.
  induction l as [|s l IH]; intros c Hp; [exact Hp|].
  cbn. apply IH, image_step_pending.
Qed.

(** C7: after a load failure on a mounted image, [showEmptyImage] is
    true and stays true through every later step: further load failures
    and new props, whatever [src] they carry. *)
Theorem showEmptyImage_terminal (p : ImageProps) (before after : list Step) :
  let failed := step LoadError (steps before (construct p)) in
  showEmptyImage (React.state failed) = true /\
  showEmptyImage (React.state (steps after failed)) = true.
Proof.
  intros failed.
  assert (Hp : React.pending (steps before (construct p)) = [])
    by (apply image_steps_pending; reflexivity).
  assert (Hf : showEmptyImage (React.state failed) = true)
    by (unfold failed; rewrite (step_settled LoadError _ Hp); reflexivity).
  split; [exact Hf|].
  apply showEmptyImage_stable; [apply image_step_pending | exact Hf].
Qed.

(** C8: when [src] is falsy or a load has failed, [render] returns
    [null] if [isLazyLoad] is falsy, and otherwise the placeholder: the
    caller's [placeholder] node when that is truthy, else the
    [Placeholder] element built from the image's attributes; an image
    constructed without [src] and with [isLazyLoad = false] renders
    [null]. *)
Theorem render_without_source (c : Component) :
  truthy_string (src (attributes (React.props c))) = false \/
  showEmptyImage (React.state c) = true ->
  let a := attributes (React.props c) in
  render c =
    (if truthy_bool (isLazyLoad (React.props c))
     then match placeholder a with
          | Some n => if truthy_node (Some n) then CallerNode n else Placeholder a
          | None => Placeholder a
          end
     else Null) /\
  (truthy_bool (isLazyLoad (React.props c)) = true -> render c <> Null) /\
  (truthy_bool (isLazyLoad (React.props c)) = false -> render c = Null).
Proof.
  intros H a.
  assert (Hc : negb (truthy_string (src (attributes (React.props c))))
               || showEmptyImage (React.state c) = true).
  { destruct H as [-> | ->]; [reflexivity | apply orb_true_r]. }
  assert (Hr : render c =
               (if truthy_bool (isLazyLoad (React.props c))
                then match placeholder a with
                     | Some n =>
                         if truthy_node (Some n) then CallerNode n else Placeholder a
                     | None => Placeholder a
                     end
                else Null)).
  { unfold render. rewrite Hc. unfold placeholderOf. reflexivity. }
  split; [exact Hr|]. rewrite Hr. split; intros ->; [|reflexivity].
  destruct (placeholder a) as [n|]; [destruct (truthy_node (Some n))|]; discriminate.
Qed.

Lemma render_without_source_witness :
  let c := construct
             (mkImageProps (Some false) None None None None None None None None
                (mkAttributes None None None ∅)) in
  let lazy := construct
                (mkImageProps None None None None None None None None None
                   (mkAttributes None None (Some (NodeElement "Spinner")) ∅)) in
  (truthy_string (src (attributes (React.props c))) = false \/
   showEmptyImage (React.state c) = true) /\
  render c = Null /\
  (truthy_string (src (attributes (React.props lazy))) = false \/
   showEmptyImage (React.state lazy) = true) /\
  render lazy = CallerNode (NodeElement "Spinner").
Proof.
  intros c lazy.
  assert (H : truthy_string (src (attributes (React.props c))) = false \/
              showEmptyImage (React.state c) = true) by (left; reflexivity).
  assert (H' : truthy_string (src (attributes (React.props lazy))) = false \/
               showEmptyImage (React.state lazy) = true) by (left; reflexivity).
  split; [exact H|]. split; [exact (proj1 (render_without_source c H))|].
  split; [exact H'|]. exact (proj1 (render_without_source lazy H')).
Defined.

(** C9: the [ReactLazyLoad] element that [render] builds always carries
    [once = false], and what [render] returns does not depend on the
    [once] the caller passed. *)
Theorem lazy_once_is_false (p : ImageProps) (s : ImageState) (v : option bool) :
  let c := React.mkInstance (defaultProps p) s [] in
  (truthy_string (src (attributes p)) = true ->
   showEmptyImage s = false ->
   default true (isLazyLoad p) = true ->
   exists lp child, render c = ReactLazyLoad lp child /\ ll_once lp = Some false) /\
  (forall lp child, render c = ReactLazyLoad lp child -> ll_once lp = Some false) /\
  render (React.mkInstance (defaultProps (with_once v p)) s []) = render c.
Proof.
  intros c. split; [|split].
  - intros Hs Hf Hl. unfold c, render; cbn. rewrite Hs, Hf, Hl; cbn.
    eexists _, _. split; reflexivity.
  - intros lp child. unfold c, render; cbn.
    destruct (negb _ || _); [destruct (default true _)|destruct (default true _)].
    + unfold placeholderOf. destruct (placeholder _) as [n|]; [|discriminate].
      destruct (truthy_node _); discriminate.
    + discriminate.
    + intros [= <- _]. reflexivity.
    + unfold ImageOrDiv; cbn. destruct (default false _); discriminate.
  - reflexivity.
Qed.

Lemma lazy_once_is_false_witness :
  exists lp child,
    render (construct
              (mkImageProps None None (Some true) None None None None None None
                 (mkAttributes (Some "a.png") None None ∅)))
    = ReactLazyLoad lp child /\ ll_once lp = Some false.
Proof.
  apply (lazy_once_is_false
           (mkImageProps None None (Some true) None None None None None None
              (mkAttributes (Some "a.png") None None ∅))
           (mkImageState false) None); reflexivity.
Defined.

End ImageSpec.

(* ===================================================================== *)
(** * Properties of the command bar *)
(* ===================================================================== *)

Module CommandBarSpec.
Import Js CommandBar.

Lemma bar_step_pending (s : Step) (c : Component) : React.pending (step s c) = [].
Proof. destruct s; reflexivity. Qed.

Lemma bar_steps_pending (l : list Step) : forall c : Component,
  React.pending c = [] -> React.pending (steps l c) = [].
Proof.
  induction l as [|s l IH]; intros c Hp; [exact Hp|].
  cbn. apply IH, bar_step_pending.
Qed.

Lemma strict_neq_refl (a : option bool) : strict_neq a a = false.
Proof. unfold strict_neq. rewrite bool_decide_eq_true_2; reflexivity. Qed.

(** After new props arrive, the state mirrors their [expanded]. *)
Lemma receive_syncs (d : DataProps) (c : Component) :
  React.pending c = [] ->
  currExpanded (React.state (step (NewProps d) c)) = expanded d.
Proof.
  intros Hp. unfold step, React.receiveProps, componentWillReceiveProps.
  destruct c as [p [cur] q]; cbn in *; subst q.
  unfold strict_neq. case_bool_decide as Heq; cbn; [exact Heq | reflexivity].
Qed.

(** C3: the height [getStyles] gives the bar is one of 24, 48 and 72
    and is determined by the truthiness of [isMinimal], by
    [labelPosition], by the truthiness of [currExpanded] and by whether
    [primaryCommands] is given.  A minimal bar that is not expanded has
    height 24; a bar that is not minimal has height 48 unless it is
    expanded with bottom labels and primary commands; an expanded bar
    with bottom labels and primary commands has height 72. *)
Theorem changedHeight_table (c : Component) :
  let h := root_height (getStyles c) in
  let '(minimal, position, open, commands) := heightInputs c in
  (h = 24 \/ h = 48 \/ h = 72)%Z /\
  (forall c' : Component, heightInputs c' = heightInputs c ->
     root_height (getStyles c') = h) /\
  (minimal = true -> open = false -> h = 24%Z) /\
  (minimal = false ->
     h = if open && bool_decide (position = LabelBottom) && commands
         then 72%Z else 48%Z) /\
  (open = true -> position = LabelBottom -> commands = true -> h = 72%Z) /\
  (minimal = true -> open = true -> position <> LabelBottom -> h = 48%Z).
Proof.
  destruct c as [p [cur] q].
  unfold heightInputs, getStyles, root_height.
  cbn [React.props React.state currExpanded].
  destruct (truthy_bool (p_isMinimal p)), (truthy_bool cur), (p_labelPosition p),
           (bool_decide (is_Some (p_primaryCommands p)));
    (repeat split;
      [ cbn; auto
      | intros [p' [cur'] q']; cbn [React.props React.state currExpanded];
        intros [= E1 E2 E3 E4]; rewrite ?E1, ?E2, ?E3, ?E4; reflexivity
      | intros; first [reflexivity | congruence] .. ]).
Qed.

Lemma changedHeight_table_witness :
  root_height
    (getStyles
       (React.mkInstance
          (defaultProps
             (mkDataProps None None None None (Some LabelRight) None None
                (Some true) None))
          (mkCommandBarState (Some false)) [])) = 24%Z.
Proof.
  apply (changedHeight_table
           (React.mkInstance
              (defaultProps
                 (mkDataProps None None None None (Some LabelRight) None None
                    (Some true) None))
              (mkCommandBarState (Some false)) [])); reflexivity.
Defined.

(** C5: on a bar with no update pending, [toggleExpanded] without a
    boolean argument sets [currExpanded] to the negation of its current
    (truthiness) value; with a boolean [b] it sets [currExpanded] to
    [b]; and when [currExpanded] is already [b] it leaves the instance
    as it is, without calling [setState]. *)
Theorem toggleExpanded_spec (p : CommandBarProps) (cur : option bool) (b : bool) :
  let c := React.mkInstance p (mkCommandBarState cur) [] in
  currExpanded (React.state (step (Toggle NotBoolean) c))
    = Some (negb (truthy_bool cur)) /\
  currExpanded (React.state (step (Toggle (Boolean b)) c)) = Some b /\
  (let same := React.mkInstance p (mkCommandBarState (Some b)) [] in
   toggleExpanded (Boolean b) same = same /\
   step (Toggle (Boolean b)) same = same).
Proof.
  cbn. split; [reflexivity|]. split.
  - unfold toggleExpanded, strict_neq; cbn.
    case_bool_decide as Heq; cbn; [congruence | reflexivity].
  - unfold toggleExpanded. rewrite strict_neq_refl. split; reflexivity.
Qed.

(** C6: whatever sequence of toggles and earlier prop updates a mounted
    bar has been through, once new props arrive [currExpanded] equals
    their [expanded]. *)
Theorem expanded_prop_resyncs (d0 d : DataProps) (history : list Step) :
  let c := steps history (construct d0) in
  currExpanded (React.state (step (NewProps d) c)) = expanded d /\
  p_expanded (React.props (step (NewProps d) c)) = expanded d.
Proof.
  intros c. split; [|reflexivity].
  apply receive_syncs, bar_steps_pending. reflexivity.
Qed.

End CommandBarSpec.

(* ===================================================================== *)
(** * Facts about numbers and objects *)
(* ===================================================================== *)

Module JsFacts.
Import Js.

Lemma num_eq_refl (a : number) : num_eq a a.
Proof. destruct a; cbn; [reflexivity | exact I ..]. Qed.

Lemma nmul_comm (a b : number) : nmul a b = nmul b a.
Proof.
  destruct a as [x| | |], b as [y| | |]; try reflexivity.
  cbn. f_equal. unfold Qmult. f_equal; [apply Z.mul_comm | apply Pos.mul_comm].
Qed.

Lemma Qcompare_pos (d : Q) : (0 < d)%Q -> (d ?= 0)%Q = Gt.
Proof. intros H. apply Qgt_alt. exact H. Qed.

(** Division by a positive finite number is the rational quotient. *)
Lemma ndiv_pos (a d : Q) : (0 < d)%Q -> ndiv (Fin a) (Fin d) = Fin (a / d).
Proof. intros H. cbn. rewrite (Qcompare_pos d H). reflexivity. Qed.

Lemma nsub_Fin (a b : Q) : nsub (Fin a) (Fin b) = Fin (a + - b).
Proof. reflexivity. Qed.

Lemma nlt_Fin (a b : Q) : nlt (Fin a) (Fin b) = true <-> (a < b)%Q.
Proof.
  cbn. rewrite Qlt_alt. destruct (a ?= b)%Q; split; congruence.
Qed.

Lemma nlt_Fin_false (a b : Q) : nlt (Fin a) (Fin b) = false <-> (b <= a)%Q.
Proof.
  split.
  - intros H. apply Qnot_lt_le. intros Hlt. apply nlt_Fin in Hlt. congruence.
  - intros H. destruct (nlt (Fin a) (Fin b)) eqn:E; [|reflexivity].
    apply nlt_Fin in E. lra.
Qed.

Lemma Qdiv_nonpos (a d : Q) : (0 < d)%Q -> (a <= 0)%Q -> (a / d <= 0)%Q.
Proof.
  intros Hd Ha. apply Qle_shift_div_r; [exact Hd | lra].
Qed.

Lemma Qdiv_ge_one (a d : Q) : (0 < d)%Q -> (d <= a)%Q -> (1 <= a / d)%Q.
Proof.
  intros Hd Ha. apply Qle_shift_div_l; [exact Hd | lra].
Qed.

Lemma Qdiv_mono (a b d : Q) : (0 < d)%Q -> (a <= b)%Q -> (a / d <= b / d)%Q.
Proof.
  intros Hd Hab. unfold Qdiv. apply Qmult_le_compat_r; [exact Hab|].
  apply Qlt_le_weak, Qinv_lt_0_compat, Hd.
Qed.

(** Reading a property after [Object.assign]. *)
Lemma get_assign (target source : object) (k : string) :
  get (assign target source) k =
    match source !! k with
    | Some v => v
    | None => get target k
    end.
Proof.
  unfold get, assign. rewrite lookup_union.
  destruct (source !! k), (target !! k); reflexivity.
Qed.

Lemma lookup_spread (base over : object) (k : string) :
  spread base over !! k =
    match over !! k with
    | Some v => Some v
    | None => base !! k
    end.
Proof.
  unfold spread. rewrite lookup_union.
  destruct (over !! k), (base !! k); reflexivity.
Qed.

(** Reading a property after an assignment to a style declaration. *)
Lemma lookup_styleAssign (style source : object) (k : string) :
  styleAssign style source !! k =
    match source !! k with
    | Some v => if is_undefined v then style !! k else Some v
    | None => style !! k
    end.
Proof.
  unfold styleAssign. rewrite lookup_union.
  destruct (source !! k) as [v|] eqn:Hs.
  - destruct (is_undefined v) eqn:Hu.
    + rewrite (proj2 (map_lookup_filter_None _ source k)).
      * destruct (style !! k); reflexivity.
      * right. intros v' Hv'. rewrite Hs in Hv'. injection Hv' as <-.
        cbn. rewrite Hu. discriminate.
    + rewrite (proj2 (map_lookup_filter_Some _ source k v))
        by (split; [exact Hs | exact Hu]).
      destruct (style !! k); reflexivity.
  - rewrite (proj2 (map_lookup_filter_None _ source k)) by (left; exact Hs).
    destruct (style !! k); reflexivity.
Qed.


End JsFacts.

(* ===================================================================== *)
(** * Properties of the slider *)
(* ===================================================================== *)

Module SliderSpec.
Import Js JsFacts Slider.

(** ** The initial state *)

Lemma initialState_currValue (p : SliderProps) :
  currValue (initialState p) = p_initValue p.
Proof. reflexivity. Qed.

(** With the default props the initial ratio is one half. *)
Lemma initialState_defaults :
  num_eq (valueRatio (initialState (defaultProps (mkDataProps None None None None None))))
         (Fin (1 # 2)).
Proof. reflexivity. Qed.

(** For finite props with [minValue = 0] and a non-empty range the
    initial ratio is [(initValue - minValue) / (maxValue - minValue)]. *)
Lemma initialState_minValue_zero (hi init : Q) (bg img : option string) :
  (0 < hi)%Q ->
  let p := mkSliderProps (Fin 0) (Fin hi) (Fin init) bg img in
  num_eq (valueRatio (initialState p))
         (ndiv (nsub (p_initValue p) (p_minValue p))
               (nsub (p_maxValue p) (p_minValue p))).
Proof.
  intros H p. unfold initialState, p; cbn [valueRatio p_initValue p_maxValue p_minValue].
  rewrite !nsub_Fin, !ndiv_pos by lra. cbn. field. lra.
Qed.

(** C1: with [minValue = 10], [maxValue = 20] and [initValue = 15] the
    initial state has [currValue = 15] and [valueRatio = 15 / (20 - 10)
    = 3/2], which is not [(15 - 10) / (20 - 10) = 1/2], lies outside
    [0, 1], and breaks the relation [currValue = minValue +
    (maxValue - minValue) * valueRatio] that [setValueByEvent]
    establishes. *)
Theorem initialState_ignores_minValue :
  let p := defaultProps
             (mkDataProps (Some (num_of_Z 10)) (Some (num_of_Z 20))
                (Some (num_of_Z 15)) None None) in
  let s := initialState p in
  currValue s = num_of_Z 15 /\
  num_eq (valueRatio s) (Fin (3 # 2)) /\
  num_eq (ndiv (nsub (p_initValue p) (p_minValue p))
               (nsub (p_maxValue p) (p_minValue p)))
         (Fin (1 # 2)) /\
  ~ num_eq (valueRatio s)
           (ndiv (nsub (p_initValue p) (p_minValue p))
                 (nsub (p_maxValue p) (p_minValue p))) /\
  ngt (valueRatio s) (num_of_Z 1) = true /\
  ~ num_eq (currValue s)
           (nadd (p_minValue p)
                 (nmul (nsub (p_maxValue p) (p_minValue p)) (valueRatio s))).
Proof.
  cbn. repeat split; try reflexivity; intros H; discriminate H.
Qed.

(** ** Frame lemmas: what each handler leaves alone *)

Lemma setValueByEvent_page (e : MouseEvent) (w : World) :
  bodyStyle (setValueByEvent e w) = bodyStyle w /\
  originBodyStyle (setValueByEvent e w) = originBodyStyle w /\
  windowListeners (setValueByEvent e w) = windowListeners w /\
  rootElm (setValueByEvent e w) = rootElm w /\
  controllerElm (setValueByEvent e w) = controllerElm w /\
  React.props (self (setValueByEvent e w)) = React.props (self w).
Proof.
  unfold setValueByEvent.
  destruct (bool_decide _ && negb _), (negb _); repeat split; reflexivity.
Qed.

Lemma flush_page (w : World) :
  bodyStyle (flush w) = bodyStyle w /\
  originBodyStyle (flush w) = originBodyStyle w /\
  windowListeners (flush w) = windowListeners w /\
  rootElm (flush w) = rootElm w /\
  controllerElm (flush w) = controllerElm w /\
  calls (flush w) = calls w /\
  React.props (self (flush w)) = React.props (self w).
Proof. repeat split; reflexivity. Qed.

(** Merging queued updates never touches the value or the ratio. *)
Lemma reduce_keeps_value (q : list Update) : forall s : SliderState,
  currValue (foldl reduce s q) = currValue s /\
  valueRatio (foldl reduce s q) = valueRatio s.
Proof.
  induction q as [|u q IH]; intros s; [split; reflexivity|].
  cbn. destruct (IH (reduce s u)) as [-> ->]. destruct u; split; reflexivity.
Qed.

Lemma flush_keeps_value (w : World) :
  currValue (state (flush w)) = currValue (state w) /\
  valueRatio (state (flush w)) = valueRatio (state w).
Proof. apply reduce_keeps_value. Qed.

(** ** The value computed from a pointer event *)

Lemma setValueByEvent_state (e : MouseEvent) (w : World) :
  let ratio :=
    clampRatio (ndiv (nsub (clientX e) (left (rootElm w)))
                     (nsub (width (rootElm w)) (width (controllerElm w)))) in
  let value :=
    nadd (p_minValue (props w))
         (nmul (nsub (p_maxValue (props w)) (p_minValue (props w))) ratio) in
  valueRatio (state (setValueByEvent e w)) = ratio /\
  currValue (state (setValueByEvent e w)) = value /\
  calls (setValueByEvent e w) = (calls w ++ [OnChangeValue value])%list.
Proof.
  unfold setValueByEvent.
  destruct (bool_decide _ && negb _), (negb _); repeat split; reflexivity.
Qed.

(** The conditional of the source is the clamp of the specification. *)
Lemma clampRatio_is_clamp (v : number) :
  clampRatio v = clamp_spec v (num_of_Z 0) (num_of_Z 1).
Proof.
  unfold clampRatio, clamp_spec, ngt.
  destruct v as [q| | |]; try reflexivity.
  unfold nmax, num_of_Z.
  destruct (nlt (Fin q) (Fin (inject_Z 0))) eqn:E0; [reflexivity|].
  unfold nmin. reflexivity.
Qed.

Lemma clampRatio_cases (q : Q) :
  ((q < 0)%Q /\ clampRatio (Fin q) = Fin 0) \/
  ((1 < q)%Q /\ clampRatio (Fin q) = Fin 1) \/
  ((0 <= q <= 1)%Q /\ clampRatio (Fin q) = Fin q).
Proof.
  unfold clampRatio, ngt, num_of_Z.
  destruct (nlt (Fin q) (Fin (inject_Z 0))) eqn:E0.
  - left. apply nlt_Fin in E0. split; [exact E0 | reflexivity].
  - apply nlt_Fin_false in E0.
    destruct (nlt (Fin (inject_Z 1)) (Fin q)) eqn:E1.
    + right; left. apply nlt_Fin in E1. split; [exact E1 | reflexivity].
    + right; right. apply nlt_Fin_false in E1. split; [split; assumption | reflexivity].
Qed.

Lemma clampRatio_mono (a b : Q) :
  (a <= b)%Q -> num_le (clampRatio (Fin a)) (clampRatio (Fin b)).
Proof.
  intros Hab.
  destruct (clampRatio_cases a) as [[Ha ->] | [[Ha ->] | [Ha ->]]],
           (clampRatio_cases b) as [[Hb ->] | [[Hb ->] | [Hb ->]]];
    cbn; lra.
Qed.

(** The ratio for a finite geometry whose track is wider than the
    handle. *)
Lemma ratio_finite (e : MouseEvent) (w : World) (x l wd cw : Q) :
  clientX e = Fin x -> left (rootElm w) = Fin l ->
  width (rootElm w) = Fin wd -> width (controllerElm w) = Fin cw ->
  (cw < wd)%Q ->
  valueRatio (state (setValueByEvent e w))
    = clampRatio (Fin ((x + - l) / (wd + - cw))).
Proof.
  intros Hx Hl Hw Hc Hlt.
  destruct (setValueByEvent_state e w) as [-> _].
  rewrite Hx, Hl, Hw, Hc, !nsub_Fin, ndiv_pos by lra. reflexivity.
Qed.

(** C2: after [setValueByEvent] the ratio is the clamp to [0, 1] of
    [(clientX - left) / (width - controllerWidth)], the value is
    [minValue + ratio * (maxValue - minValue)], and [onChangeValue] has
    been called once more, with that value.  When the measured numbers
    are finite and the track is wider than the handle, the ratio lies in
    [0, 1], is 0 for a pointer at or left of the track start, is 1 for a
    pointer at or right of the end of the handle's travel (hence right
    of the track end), and grows with [clientX]. *)
Theorem setValueByEvent_spec (w : World) (e : MouseEvent) :
  let raw :=
    ndiv (nsub (clientX e) (left (rootElm w)))
         (nsub (width (rootElm w)) (width (controllerElm w))) in
  let ratio := valueRatio (state (setValueByEvent e w)) in
  let value := currValue (state (setValueByEvent e w)) in
  ratio = clamp_spec raw (num_of_Z 0) (num_of_Z 1) /\
  value = nadd (p_minValue (props w))
               (nmul ratio (nsub (p_maxValue (props w)) (p_minValue (props w)))) /\
  calls (setValueByEvent e w) = (calls w ++ [OnChangeValue value])%list /\
  forall x l wd cw : Q,
    clientX e = Fin x -> left (rootElm w) = Fin l ->
    width (rootElm w) = Fin wd -> width (controllerElm w) = Fin cw ->
    (cw < wd)%Q ->
    num_le (Fin 0) ratio /\ num_le ratio (Fin 1) /\
    ((x <= l)%Q -> num_eq ratio (Fin 0)) /\
    ((l + (wd - cw) <= x)%Q -> num_eq ratio (Fin 1)) /\
    ((0 <= cw)%Q -> (l + wd <= x)%Q -> num_eq ratio (Fin 1)) /\
    ((l <= x <= l + (wd - cw))%Q -> num_eq ratio (Fin ((x - l) / (wd - cw)))) /\
    (forall (e' : MouseEvent) (x' : Q),
       clientX e' = Fin x' -> (x <= x')%Q ->
       num_le ratio (valueRatio (state (setValueByEvent e' w)))).
Proof.
  intros raw ratio value.
  destruct (setValueByEvent_state e w) as (Hr & Hv & Hc).
  split; [|split; [|split]].
  - unfold ratio. rewrite Hr. apply clampRatio_is_clamp.
  - unfold value. rewrite Hv. unfold ratio. rewrite Hr, nmul_comm. reflexivity.
  - unfold value. rewrite Hc, Hv. reflexivity.
  - intros x l wd cw Hx Hl Hw Hcw Hlt.
    assert (Hd : (0 < wd + - cw)%Q) by lra.
    pose proof (ratio_finite e w x l wd cw Hx Hl Hw Hcw Hlt) as Hq.
    fold ratio in Hq.
    pose proof (Qdiv_nonpos (x + - l) _ Hd) as Hlo.
    pose proof (Qdiv_ge_one (x + - l) _ Hd) as Hhi.
    assert (Hmid : ((x - l) / (wd - cw) == (x + - l) / (wd + - cw))%Q)
      by reflexivity.
    repeat split.
    + rewrite Hq.
      destruct (clampRatio_cases ((x + - l) / (wd + - cw)))
        as [[H ->] | [[H ->] | [H ->]]]; cbn; lra.
    + rewrite Hq.
      destruct (clampRatio_cases ((x + - l) / (wd + - cw)))
        as [[H ->] | [[H ->] | [H ->]]]; cbn; lra.
    + intros Hxl. rewrite Hq.
      destruct (clampRatio_cases ((x + - l) / (wd + - cw)))
        as [[H ->] | [[H ->] | [H ->]]]; cbn; lra.
    + intros Hxr. rewrite Hq.
      destruct (clampRatio_cases ((x + - l) / (wd + - cw)))
        as [[H ->] | [[H ->] | [H ->]]]; cbn; lra.
    + intros Hcw0 Hxr. rewrite Hq.
      destruct (clampRatio_cases ((x + - l) / (wd + - cw)))
        as [[H ->] | [[H ->] | [H ->]]]; cbn; lra.
    + intros [Hxl Hxr]. rewrite Hq.
      pose proof (Qdiv_mono 0 (x + - l) _ Hd) as Hm0.
      pose proof (Qdiv_mono (x + - l) (wd + - cw) _ Hd) as Hm1.
      assert (H0 : (0 / (wd + - cw) == 0)%Q) by (field; lra).
      assert (H1 : ((wd + - cw) / (wd + - cw) == 1)%Q) by (field; lra).
      destruct (clampRatio_cases ((x + - l) / (wd + - cw)))
        as [[H ->] | [[H ->] | [H ->]]]; cbn; lra.
    + intros e' x' Hx' Hle. rewrite Hq.
      rewrite (ratio_finite e' w x' l wd cw Hx' Hl Hw Hcw Hlt).
      apply clampRatio_mono, Qdiv_mono; [exact Hd | lra].
Qed.

Lemma setValueByEvent_spec_witness :
  let w := construct (mkDataProps None None None None None) ∅ []
             (mkDOMRect (Fin 10) (Fin 208)) (mkDOMRect (Fin 110) (Fin 8)) in
  let e := mkMouseEvent "mousedown" (Fin 60) in
  (8 < 208)%Q /\
  num_eq (valueRatio (state (setValueByEvent e w))) (Fin ((60 - 10) / (208 - 8))) /\
  num_eq (currValue (state (setValueByEvent e w))) (Fin 25).
Proof.
  intros w e.
  assert (Hlt : (8 < 208)%Q) by reflexivity.
  split; [exact Hlt|]. split.
  - apply (setValueByEvent_spec w e) with (x := 60%Q) (l := 10%Q) (wd := 208%Q) (cw := 8%Q);
      [reflexivity .. | exact Hlt | split; discriminate].
  - reflexivity.
Defined.

(** With a track of width 8 and a handle of width 108 the divisor is
    negative: a pointer left of the track start gets ratio 1, one right
    of the track end gets ratio 0, and the ratio falls as the pointer
    moves right. *)
Lemma setValueByEvent_narrow_track :
  let w := construct (mkDataProps None None None None None) ∅ []
             (mkDOMRect (Fin 0) (Fin 8)) (mkDOMRect (Fin 0) (Fin 108)) in
  let ratio (x : Q) :=
    valueRatio (state (setValueByEvent (mkMouseEvent "mousemove" (Fin x)) w)) in
  ((-200 < 0)%Q /\ num_eq (ratio (-200)%Q) (Fin 1) /\
   ~ num_eq (ratio (-200)%Q) (Fin 0)) /\
  ((0 + 8 < 500)%Q /\ num_eq (ratio 500%Q) (Fin 0) /\
   ~ num_eq (ratio 500%Q) (Fin 1)) /\
  ((-50 <= -10)%Q /\ num_eq (ratio (-50)%Q) (Fin (1 # 2)) /\
   num_eq (ratio (-10)%Q) (Fin (1 # 10)) /\
   ~ num_le (ratio (-50)%Q) (ratio (-10)%Q)).
Proof.
  cbv zeta. repeat split; try reflexivity; try discriminate;
    intros H; vm_compute in H; first [discriminate H | apply H; reflexivity].
Qed.

(** ** Listeners *)


Lemma addEventListener_elem (l x : Listener) (ls : list Listener) :
  x ∈ addEventListener l ls <-> x ∈ ls \/ x = l.
Proof.
  unfold addEventListener. case_bool_decide as Hin.
  - split; [tauto | intros [H | ->]; assumption].
  - rewrite elem_of_app, list_elem_of_singleton. tauto.
Qed.

Lemma removeEventListener_absent (l : Listener) (ls : list Listener) :
  l ∉ ls -> removeEventListener l ls = ls.
Proof.
  intros Hn. unfold removeEventListener.
  induction ls as [|x ls IH]; [reflexivity|].
  apply not_elem_of_cons in Hn as [Hne Hn].
  rewrite filter_cons_True by congruence. f_equal. apply IH, Hn.
Qed.




(** ** The body style during a drag *)

Lemma dragReset_lookup (k : string) :
  dragReset !! k = if bool_decide (k ∈ dragKeys) then Some VUndefined else None.
Proof.
  unfold dragReset, dragKeys. case_bool_decide as Hk.
  - repeat (apply elem_of_cons in Hk as [-> | Hk]); try reflexivity.
    inversion Hk.
  - rewrite !not_elem_of_cons in Hk. destruct Hk as (H1 & H2 & H3 & H4 & _).
    rewrite !lookup_insert_ne by congruence. apply lookup_empty.
Qed.




(** What the assignment in [handelMouseUp] does to one property: a
    defined value of the saved copy is written, anything else leaves the
    property as it is. *)
Lemma release_lookup (body origin : object) (k : string) :
  styleAssign body (spread dragReset origin) !! k =
    match origin !! k with
    | Some v => if is_undefined v then body !! k else Some v
    | None => body !! k
    end.
Proof.
  rewrite lookup_styleAssign, lookup_spread, dragReset_lookup.
  destruct (origin !! k); [reflexivity|].
  destruct (bool_decide (k ∈ dragKeys)); reflexivity.
Qed.

(** ** What each event does to the page *)

Lemma invoke_MouseDown_page (e : MouseEvent) (w : World) :
  bodyStyle (invoke (MouseDown e) w) = assign (bodyStyle w) dragOverride /\
  originBodyStyle (invoke (MouseDown e) w) = originBodyStyle w /\
  windowListeners (invoke (MouseDown e) w)
    = addEventListener ("mouseup", HandelMouseUp)
        (addEventListener ("mousemove", SetValueByEvent) (windowListeners w)).
Proof.
  unfold invoke, handelMouseDown.
  destruct (setValueByEvent_page e
    (with_windowListeners
       (addEventListener ("mouseup", HandelMouseUp)
          (windowListeners
             (with_windowListeners
                (addEventListener ("mousemove", SetValueByEvent)
                   (windowListeners (with_bodyStyle (assign (bodyStyle w) dragOverride) w)))
                (with_bodyStyle (assign (bodyStyle w) dragOverride) w))))
       (with_windowListeners
          (addEventListener ("mousemove", SetValueByEvent)
             (windowListeners (with_bodyStyle (assign (bodyStyle w) dragOverride) w)))
          (with_bodyStyle (assign (bodyStyle w) dragOverride) w))))
    as (Hb & Ho & Hl & _).
  cbn [flush with_self bodyStyle originBodyStyle windowListeners].
  rewrite Hb, Ho, Hl. repeat split; reflexivity.
Qed.


Lemma invoke_ValueByEvent_page (e : MouseEvent) (w : World) :
  bodyStyle (invoke (ValueByEvent e) w) = bodyStyle w /\
  originBodyStyle (invoke (ValueByEvent e) w) = originBodyStyle w /\
  windowListeners (invoke (ValueByEvent e) w) = windowListeners w.
Proof.
  destruct (setValueByEvent_page e w) as (Hb & Ho & Hl & _).
  unfold invoke. cbn [flush with_self bodyStyle originBodyStyle windowListeners].
  rewrite Hb, Ho, Hl. repeat split; reflexivity.
Qed.



Lemma dragSession_unfold (down up : MouseEvent) (moves : list MouseEvent)
    (onRoot : bool) (w : World) :
  deliverAll (dragSession down moves onRoot up) w
    = deliver (PointerUp onRoot up)
        (deliverAll (map PointerMove moves) (deliver (PointerDown down) w)).
Proof.
  unfold dragSession, deliverAll. cbn [foldl]. rewrite foldl_app. reflexivity.
Qed.




(** ** Callbacks *)

Lemma invoke_calls (a : Action) (w : World) :
  calls (invoke a w) = (calls w ++ reported a w)%list.
Proof.
  destruct a as [| |e|e|e|e]; unfold reported;
    try (cbn; rewrite app_nil_r; reflexivity).
  - change (invoke (OnClick e) w) with (flush (setValueByEvent e w)).
    destruct (flush_keeps_value (setValueByEvent e w)) as [-> _].
    destruct (setValueByEvent_state e w) as (_ & -> & Hc). exact Hc.
  - change (invoke (MouseDown e) w) with (flush (handelMouseDown e w)).
    destruct (flush_keeps_value (handelMouseDown e w)) as [-> _].
    unfold handelMouseDown.
    match goal with
    | |- context [setValueByEvent e ?w'] =>
        destruct (setValueByEvent_state e w') as (_ & -> & Hc)
    end.
    exact Hc.
  - change (invoke (ValueByEvent e) w) with (flush (setValueByEvent e w)).
    destruct (flush_keeps_value (setValueByEvent e w)) as [-> _].
    destruct (setValueByEvent_state e w) as (_ & -> & Hc). exact Hc.
Qed.

Lemma reported_values (a : Action) (w : World) :
  exists vs, reported a w = map OnChangeValue vs.
Proof.
  destruct a; first [ exists []; reflexivity | eexists [_]; reflexivity ].
Qed.

Lemma run_calls (actions : list Action) : forall w : World,
  exists vs, calls (run actions w) = (calls w ++ map OnChangeValue vs)%list.
Proof.
  induction actions as [|a actions IH]; intros w.
  - exists []. cbn. rewrite app_nil_r. reflexivity.
  - destruct (IH (invoke a w)) as [vs Hvs].
    destruct (reported_values a w) as [v Hv].
    exists (v ++ vs)%list. cbn [run foldl]. fold (run actions (invoke a w)).
    rewrite Hvs, invoke_calls, Hv, map_app, app_assoc. reflexivity.
Qed.

(** Every delivery of an event is a sequence of handler invocations. *)
Lemma deliverAll_run (evs : list DomEvent) : forall w : World,
  exists actions, deliverAll evs w = run actions w.
Proof.
  induction evs as [|ev evs IH]; intros w; [exists []; reflexivity|].
  destruct (IH (deliver ev w)) as [acts Hacts].
  assert (Hev : exists a1, deliver ev w = run a1 w).
  { destruct ev as [| |e|e|onRoot e]; cbn [deliver].
    - exists [MouseEnter]; reflexivity.
    - exists [MouseLeave]; reflexivity.
    - exists [MouseDown e]; reflexivity.
    - destruct (registered _ w); [exists [ValueByEvent e] | exists []]; reflexivity.
    - destruct onRoot.
      + destruct (registered _ (invoke (MouseUp e) w));
          [exists [MouseUp e; MouseUp e] | exists [MouseUp e]]; reflexivity.
      + destruct (registered _ w); [exists [MouseUp e] | exists []]; reflexivity. }
  destruct Hev as [a1 Ha1]. exists (a1 ++ acts)%list.
  change (deliverAll (ev :: evs) w) with (deliverAll evs (deliver ev w)).
  rewrite Hacts, Ha1. unfold run. rewrite foldl_app. reflexivity.
Qed.

(** C10: every handler invocation adds to the calls either nothing or
    one [onChangeValue] call carrying the new [currValue]; hence after
    any sequence of handler invocations, and after any sequence of
    delivered events, the calls made are [onChangeValue] calls only, and
    a freshly constructed slider never has called [onChangeValueRatio]. *)
Theorem onChangeValueRatio_never_called (w : World) (actions : list Action)
    (events : list DomEvent) :
  (forall a w0, calls (invoke a w0) = (calls w0 ++ reported a w0)%list) /\
  (exists vs, calls (run actions w) = (calls w ++ map OnChangeValue vs)%list) /\
  (exists vs, calls (deliverAll events w) = (calls w ++ map OnChangeValue vs)%list) /\
  (forall d body ls root controller r,
     let fresh := construct d body ls root controller in
     (OnChangeValueRatio r ∉ calls (run actions fresh)) /\
     (OnChangeValueRatio r ∉ calls (deliverAll events fresh))).
Proof.
  split; [exact invoke_calls|]. split; [apply run_calls|]. split.
  - destruct (deliverAll_run events w) as [acts ->]. apply run_calls.
  - intros d body ls root controller r fresh.
    assert (Hno : forall acts, OnChangeValueRatio r ∉ calls (run acts fresh)).
    { intros acts. destruct (run_calls acts fresh) as [vs ->].
      cbn [fresh construct calls app]. rewrite list_elem_of_fmap.
      intros (v & Hv & _). discriminate Hv. }
    split; [apply Hno|].
    destruct (deliverAll_run events fresh) as [acts ->]. apply Hno.
Qed.

End SliderSpec.

(* ===================================================================== *)
(** * Further properties of the slider *)
(* ===================================================================== *)

Module SliderExtra.
Import Js JsFacts Slider SliderView SliderSpec.

(** ** The degenerate track *)

Lemma Qcompare_neg (d : Q) : (d < 0)%Q -> (d ?= 0)%Q = Lt.
Proof. intros H. apply Qlt_alt. exact H. Qed.

Lemma Qcompare_zero (d : Q) : (d == 0)%Q -> (d ?= 0)%Q = Eq.
Proof. intros H. apply Qeq_alt. exact H. Qed.

Lemma Qcompare_self_sub (a : Q) : (a + - a ?= 0)%Q = Eq.
Proof. apply Qcompare_zero. ring. Qed.

(** X2: when the handle is as wide as the track (as for a hidden
    slider, whose rectangles are all zero) the division is by zero: the
    ratio is 1 for a pointer right of the track start, 0 for a pointer
    left of it and [NaN] for a pointer exactly at it, and then [NaN] is
    stored as the value and passed to [onChangeValue]. *)
Theorem setValueByEvent_zero_travel (w : World) (e : MouseEvent) (x l wd : Q) :
  clientX e = Fin x -> left (rootElm w) = Fin l ->
  width (rootElm w) = Fin wd -> width (controllerElm w) = Fin wd ->
  let w' := setValueByEvent e w in
  ((l < x)%Q -> valueRatio (state w') = num_of_Z 1) /\
  ((x < l)%Q -> valueRatio (state w') = num_of_Z 0) /\
  ((x == l)%Q ->
     valueRatio (state w') = NaN /\ currValue (state w') = NaN /\
     last (calls w') = Some (OnChangeValue NaN)).
Proof.
  intros Hx Hl Hw Hc w'.
  destruct (setValueByEvent_state e w) as (Hr & Hv & Hcalls).
  fold w' in Hr, Hv, Hcalls.
  assert (Hraw : ndiv (nsub (clientX e) (left (rootElm w)))
                      (nsub (width (rootElm w)) (width (controllerElm w)))
                 = signed_inf (x + - l) true).
  { rewrite Hx, Hl, Hw, Hc, !nsub_Fin. cbn [ndiv].
    rewrite Qcompare_self_sub. reflexivity. }
  rewrite Hraw in Hr, Hv, Hcalls. unfold signed_inf in Hr, Hv, Hcalls.
  split; [|split].
  - intros Hlt. assert (E : (x + - l ?= 0)%Q = Gt) by (apply Qcompare_pos; lra).
    rewrite E in Hr. exact Hr.
  - intros Hlt. assert (E : (x + - l ?= 0)%Q = Lt) by (apply Qcompare_neg; lra).
    rewrite E in Hr. exact Hr.
  - intros Heq. assert (E : (x + - l ?= 0)%Q = Eq) by (apply Qcompare_zero; lra).
    rewrite E in Hr, Hv, Hcalls. split; [exact Hr|].
    assert (Hnan : forall a b, nadd a (nmul b NaN) = NaN)
      by (intros [| | |] [| | |]; reflexivity).
    change (clampRatio NaN) with NaN in Hv, Hcalls.
    rewrite Hnan in Hv, Hcalls. split; [exact Hv|].
    rewrite Hcalls. apply last_snoc.
Qed.

Lemma setValueByEvent_zero_travel_witness :
  let w := construct (mkDataProps None None None None None) ∅ []
             (mkDOMRect (Fin 0) (Fin 0)) (mkDOMRect (Fin 0) (Fin 0)) in
  let e := mkMouseEvent "mousemove" (Fin 0) in
  (0 == 0)%Q /\ last (calls (setValueByEvent e w)) = Some (OnChangeValue NaN).
Proof.
  intros w e.
  assert (H0 : (0 == 0)%Q) by reflexivity.
  split; [exact H0|].
  destruct (setValueByEvent_zero_travel w e 0 0 0 eq_refl eq_refl eq_refl eq_refl)
    as (_ & _ & Hnan).
  destruct (Hnan H0) as (_ & _ & Hlast). exact Hlast.
Defined.

(** ** The relation between value and ratio *)

Lemma setValueByEvent_consistent (e : MouseEvent) (w : World) :
  consistent (setValueByEvent e w).
Proof.
  unfold consistent.
  destruct (setValueByEvent_state e w) as (-> & -> & _).
  destruct (setValueByEvent_page e w) as (_ & _ & _ & _ & _ & Hp).
  unfold props. rewrite Hp. reflexivity.
Qed.

Lemma flush_consistent (w : World) : consistent w -> consistent (flush w).
Proof.
  unfold consistent. destruct (flush_keeps_value w) as [-> ->].
  intros H. exact H.
Qed.

Lemma setState_consistent (u : Update) (w : World) :
  consistent w -> consistent (setState u w).
Proof. intros H. exact H. Qed.

Lemma invoke_consistent (a : Action) (w : World) :
  consistent w -> consistent (invoke a w).
Proof.
  intros H. unfold invoke. apply flush_consistent.
  destruct a as [| |e|e|e|e]; try exact H; apply setValueByEvent_consistent.
Qed.

Lemma run_consistent (actions : list Action) : forall w : World,
  consistent w -> consistent (run actions w).
Proof.
  induction actions as [|a actions IH]; intros w H; [exact H|].
  apply (IH (invoke a w)), invoke_consistent, H.
Qed.

(** X3: once a pointer event has been processed, the state keeps
    [currValue = minValue + (maxValue - minValue) * valueRatio] through
    every later sequence of handler invocations. *)
Theorem value_ratio_consistent (w : World) (e : MouseEvent) (actions : list Action) :
  consistent (run (ValueByEvent e :: actions) w) /\
  consistent (run (MouseDown e :: actions) w) /\
  consistent (run (OnClick e :: actions) w).
Proof.
  repeat split;
    (apply (run_consistent actions (invoke _ w)); unfold invoke;
     apply flush_consistent, setValueByEvent_consistent).
Qed.

(** ** Hovering *)




(** ** Releasing the pointer *)

Lemma invoke_MouseUp_value (e : MouseEvent) (w : World) :
  let w' := invoke (MouseUp e) w in
  dragging (state w') = Some false /\
  currValue (state w') = currValue (state w) /\
  valueRatio (state w') = valueRatio (state w) /\
  calls w' = calls w /\
  barElmStyle w' = barElmStyle w /\
  controllerWrapperElmStyle w' = controllerWrapperElmStyle w.
Proof.
  cbn zeta. split.
  - unfold invoke, flush, handelMouseUp, setState, state.
    cbn [self with_self with_windowListeners with_bodyStyle React.flush
         React.setState React.state React.pending].
    rewrite foldl_app. reflexivity.
  - destruct (flush_keeps_value (handelMouseUp e w)) as [Hv Hr].
    repeat split; assumption || reflexivity.
Qed.



(** ** Pointer moves outside a drag *)



(** ** The body style after a pointer-up *)






(** ** Direct style writes and [getStyles] *)

Lemma setValueByEvent_elements (e : MouseEvent) (w : World) :
  let ratio := valueRatio (state (setValueByEvent e w)) in
  let custom :=
    truthy_string (p_barBackground (props w))
    || truthy_string (p_barBackgroundImage (props w)) in
  controllerWrapperElmStyle (setValueByEvent e w)
    = assign (controllerWrapperElmStyle w)
        (transformStyle (VTranslateX (nmul ratio (num_of_Z 100)))) /\
  barElmStyle (setValueByEvent e w)
    = if custom then barElmStyle w
      else assign (barElmStyle w)
             (transformStyle
                (VTranslateX (nmul (nsub ratio (num_of_Z 1)) (num_of_Z 100)))).
Proof.
  cbn zeta. destruct (setValueByEvent_state e w) as (-> & _ & _).
  unfold setValueByEvent.
  destruct (bool_decide _ && negb _);
    cbn [props state self with_self setState React.setState React.props];
    destruct (truthy_string _ || truthy_string _); split; reflexivity.
Qed.

Lemma get_transformStyle (o : object) (t : value) (k : string) :
  k ∈ ["transform"; "webKitTransform"; "msTransform"; "mozTransform"] ->
  get (assign o (transformStyle t)) k = t.
Proof.
  intros Hk. rewrite get_assign.
  repeat (apply elem_of_cons in Hk as [-> | Hk]); try reflexivity.
  inversion Hk.
Qed.

Lemma flush_getStyles_transform (w : World) :
  bar_transform (getStyles (flush w)) = bar_transform (getStyles w) /\
  controllerWrapper_transform (getStyles (flush w))
    = controllerWrapper_transform (getStyles w).
Proof.
  unfold getStyles; cbn [bar_transform controllerWrapper_transform].
  destruct (flush_keeps_value w) as [_ ->]. split; reflexivity.
Qed.

(** X8: the transforms that a pointer event writes straight into the
    two elements are the ones [getStyles] computes from the new state, so
    the next render changes neither: the handle wrapper always, the fill
    bar when no custom background is set; with a custom background the
    bar element is not written and [getStyles] gives it no transform. *)
Theorem direct_writes_match_getStyles (e : MouseEvent) (w : World) :
  let w' := invoke (ValueByEvent e) w in
  let custom :=
    truthy_string (p_barBackground (props w))
    || truthy_string (p_barBackgroundImage (props w)) in
  (forall k, k ∈ ["transform"; "webKitTransform"; "msTransform"; "mozTransform"] ->
     get (controllerWrapperElmStyle w') k
       = controllerWrapper_transform (getStyles w')) /\
  (custom = false ->
   forall k, k ∈ ["transform"; "webKitTransform"; "msTransform"; "mozTransform"] ->
     get (barElmStyle w') k = bar_transform (getStyles w')) /\
  (custom = true ->
   barElmStyle w' = barElmStyle w /\ bar_transform (getStyles w') = VUndefined).
Proof.
  cbn zeta. unfold invoke.
  destruct (flush_getStyles_transform (setValueByEvent e w)) as [-> ->].
  change (controllerWrapperElmStyle (flush (setValueByEvent e w)))
    with (controllerWrapperElmStyle (setValueByEvent e w)).
  change (barElmStyle (flush (setValueByEvent e w)))
    with (barElmStyle (setValueByEvent e w)).
  destruct (setValueByEvent_elements e w) as [-> ->].
  destruct (setValueByEvent_page e w) as (_ & _ & _ & _ & _ & Hp).
  assert (Hp' : props (setValueByEvent e w) = props w) by exact Hp.
  unfold getStyles; cbn [bar_transform controllerWrapper_transform].
  rewrite !Hp'.
  split; [|split].
  - intros k Hk. apply get_transformStyle, Hk.
  - intros -> k Hk. apply get_transformStyle, Hk.
  - intros ->. split; reflexivity.
Qed.

Lemma direct_writes_match_getStyles_witness :
  let w := construct (mkDataProps None None None None None) ∅ []
             (mkDOMRect (Fin 0) (Fin 108)) (mkDOMRect (Fin 50) (Fin 8)) in
  let e := mkMouseEvent "mousemove" (Fin 25) in
  truthy_string (p_barBackground (props w))
  || truthy_string (p_barBackgroundImage (props w)) = false /\
  get (barElmStyle (invoke (ValueByEvent e) w)) "transform"
    = bar_transform (getStyles (invoke (ValueByEvent e) w)).
Proof.
  intros w e.
  assert (H : truthy_string (p_barBackground (props w))
              || truthy_string (p_barBackgroundImage (props w)) = false)
    by reflexivity.
  split; [exact H|].
  destruct (direct_writes_match_getStyles e w) as (_ & Hb & _).
  apply (Hb H). apply list_elem_of_here.
Defined.

(** ** The dragging flag *)









(** ** The calls of a whole drag *)

Lemma valueAt_same_geometry (e : MouseEvent) (w1 w2 : World) :
  props w1 = props w2 -> rootElm w1 = rootElm w2 ->
  controllerElm w1 = controllerElm w2 ->
  valueAt e w1 = valueAt e w2.
Proof.
  intros Hp Hr Hc. unfold valueAt.
  destruct (setValueByEvent_state e w1) as (_ & -> & _).
  destruct (setValueByEvent_state e w2) as (_ & -> & _).
  rewrite Hp, Hr, Hc. reflexivity.
Qed.

Lemma invoke_ValueByEvent_geometry (e : MouseEvent) (w : World) :
  props (invoke (ValueByEvent e) w) = props w /\
  rootElm (invoke (ValueByEvent e) w) = rootElm w /\
  controllerElm (invoke (ValueByEvent e) w) = controllerElm w.
Proof.
  destruct (setValueByEvent_page e w) as (_ & _ & _ & Hr & Hc & Hp).
  unfold invoke, props. cbn [flush with_self self rootElm controllerElm React.flush React.props].
  rewrite Hr, Hc, Hp. repeat split; reflexivity.
Qed.

Lemma invoke_MouseDown_geometry (e : MouseEvent) (w : World) :
  props (invoke (MouseDown e) w) = props w /\
  rootElm (invoke (MouseDown e) w) = rootElm w /\
  controllerElm (invoke (MouseDown e) w) = controllerElm w.
Proof.
  unfold invoke, handelMouseDown.
  match goal with
  | |- context [setValueByEvent e ?w0] =>
      destruct (setValueByEvent_page e w0) as (_ & _ & _ & Hr & Hc & Hp)
  end.
  unfold props. cbn [flush with_self self rootElm controllerElm React.flush React.props].
  rewrite Hr, Hc, Hp. repeat split; reflexivity.
Qed.

Lemma invoke_value_call (a : Action) (e : MouseEvent) (w : World) :
  a = MouseDown e \/ a = ValueByEvent e ->
  calls (invoke a w) = (calls w ++ [OnChangeValue (valueAt e w)])%list /\
  currValue (state (invoke a w)) = valueAt e w.
Proof.
  intros Ha. rewrite invoke_calls.
  assert (Hv : currValue (state (invoke a w)) = valueAt e w).
  { destruct Ha as [-> | ->].
    - change (invoke (MouseDown e) w) with (flush (handelMouseDown e w)).
      destruct (flush_keeps_value (handelMouseDown e w)) as [-> _].
      unfold handelMouseDown.
      match goal with
      | |- context [setValueByEvent e ?w0] =>
          change (currValue (state (setValueByEvent e w0))) with (valueAt e w0);
          apply valueAt_same_geometry; reflexivity
      end.
    - change (invoke (ValueByEvent e) w) with (flush (setValueByEvent e w)).
      destruct (flush_keeps_value (setValueByEvent e w)) as [-> _]. reflexivity. }
  split; [|exact Hv].
  destruct Ha as [-> | ->]; unfold reported; rewrite Hv; reflexivity.
Qed.

Lemma moves_calls (moves : list MouseEvent) : forall w1 : World,
  ("mousemove", SetValueByEvent) ∈ windowListeners w1 ->
  calls (deliverAll (map PointerMove moves) w1)
    = (calls w1 ++ map (λ e, OnChangeValue (valueAt e w1)) moves)%list /\
  (forall m, last moves = Some m ->
     currValue (state (deliverAll (map PointerMove moves) w1)) = valueAt m w1).
Proof.
  induction moves as [|e moves IH]; intros w1 Hin.
  - cbn. rewrite app_nil_r. split; [reflexivity | intros m Hm; discriminate Hm].
  - change (deliverAll (map PointerMove (e :: moves)) w1)
      with (deliverAll (map PointerMove moves) (deliver (PointerMove e) w1)).
    assert (Hd : deliver (PointerMove e) w1 = invoke (ValueByEvent e) w1).
    { unfold deliver, registered. rewrite bool_decide_eq_true_2 by exact Hin.
      reflexivity. }
    rewrite Hd.
    destruct (invoke_ValueByEvent_page e w1) as (_ & _ & Hl).
    destruct (invoke_ValueByEvent_geometry e w1) as (Gp & Gr & Gc).
    destruct (invoke_value_call (ValueByEvent e) e w1 (or_intror eq_refl))
      as (Hc & Hv).
    assert (Hin' : ("mousemove", SetValueByEvent)
                   ∈ windowListeners (invoke (ValueByEvent e) w1))
      by (rewrite Hl; exact Hin).
    destruct (IH (invoke (ValueByEvent e) w1) Hin') as (IHc & IHl).
    assert (Hsame : forall m, valueAt m (invoke (ValueByEvent e) w1) = valueAt m w1)
      by (intros m; apply valueAt_same_geometry; assumption).
    split.
    + rewrite IHc, Hc. cbn [map]. rewrite <- app_assoc. cbn [app]. do 2 f_equal.
      apply map_ext. intros m. rewrite Hsame. reflexivity.
    + intros m Hm. rewrite last_cons in Hm.
      destruct (last moves) as [m'|] eqn:El.
      * rewrite (IHl m Hm). apply Hsame.
      * injection Hm as <-.
        destruct moves as [|? ?];
          [exact Hv | rewrite last_cons in El; destruct (last moves); discriminate El].
Qed.

(** X20: over a whole drag session [onChangeValue] is called once for
    the pointer-down and once for every move, in that order, each time
    with the value of that event's own position (as computed on the
    instance before the drag), and never for the release; the value the
    state ends with is the one of the last of these events. *)
Theorem drag_session_calls (w : World) (down up : MouseEvent)
    (moves : list MouseEvent) (onRoot : bool) :
  let released := deliverAll (dragSession down moves onRoot up) w in
  calls released
    = (calls w ++ map (λ e, OnChangeValue (valueAt e w)) (down :: moves))%list /\
  currValue (state released) = valueAt (default down (last moves)) w.
Proof.
  intros released. unfold released. rewrite dragSession_unfold.
  set (pressed := deliver (PointerDown down) w).
  set (moving := deliverAll (map PointerMove moves) pressed).
  destruct (invoke_MouseUp_value up moving) as (_ & U1 & _ & U3 & _).
  destruct (invoke_MouseUp_value up (invoke (MouseUp up) moving))
    as (_ & U1' & _ & U3' & _).
  assert (Hup : calls (deliver (PointerUp onRoot up) moving) = calls moving /\
                currValue (state (deliver (PointerUp onRoot up) moving))
                  = currValue (state moving)).
  { unfold deliver. destruct onRoot.
    - destruct (registered _ (invoke (MouseUp up) moving)).
      + rewrite U3', U3, U1', U1. split; reflexivity.
      + rewrite U3, U1. split; reflexivity.
    - destruct (registered _ moving); [rewrite U3, U1|]; split; reflexivity. }
  destruct Hup as [-> ->].
  destruct (invoke_MouseDown_page down w) as (_ & _ & Hl).
  destruct (invoke_MouseDown_geometry down w) as (Gp & Gr & Gc).
  destruct (invoke_value_call (MouseDown down) down w (or_introl eq_refl))
    as (Hc & Hv).
  assert (Hin : ("mousemove", SetValueByEvent) ∈ windowListeners pressed).
  { unfold pressed; cbn [deliver]. rewrite Hl, !addEventListener_elem.
    left; right; reflexivity. }
  destruct (moves_calls moves pressed Hin) as (Mc & Ml).
  fold moving in Mc, Ml.
  assert (Hsame : forall m, valueAt m pressed = valueAt m w)
    by (intros m; apply valueAt_same_geometry; assumption).
  split.
  - rewrite Mc. unfold pressed at 1; cbn [deliver]. rewrite Hc.
    cbn [map]. rewrite <- app_assoc. cbn [app]. do 2 f_equal.
    apply map_ext. intros m. rewrite Hsame. reflexivity.
  - destruct (last moves) as [m|] eqn:El; cbn [default].
    + rewrite (Ml m eq_refl). apply Hsame.
    + destruct moves as [|? ?];
        [exact Hv | rewrite last_cons in El; destruct (last moves); discriminate El].
Qed.

End SliderExtra.

(* ===================================================================== *)
(** * Further properties of the command bar *)
(* ===================================================================== *)

Module CommandBarExtra.
Import Js CommandBar CommandBarView CommandBarSpec.

(** ** Primary commands *)

Lemma cloned_types (lp : LabelPosition) (l : list ElementType) : forall n : nat,
  let items :=
    imap (λ (index : nat) (child : ElementType),
            mkPrimaryCommand child lp (n + index)
              (match child with AppBarSeparator => Some 24%Z | _ => None end)) l in
  map pc_type items = l /\
  map pc_key items = seq n (length l) /\
  Forall (λ item,
            pc_labelPosition item = lp /\
            pc_style_height item
              = match pc_type item with AppBarSeparator => Some 24%Z | _ => None end)
         items.
Proof.
  induction l as [|x l IH]; intros n; cbn zeta.
  - repeat split; constructor.
  - rewrite imap_cons. cbn [map length seq].
    destruct (IH (S n)) as (Ht & Hk & Hf).
    assert (Hext : imap ((λ (index : nat) (child : ElementType),
                            mkPrimaryCommand child lp (n + index)
                              (match child with
                               | AppBarSeparator => Some 24%Z | _ => None end)) ∘ S) l
                   = imap (λ (index : nat) (child : ElementType),
                             mkPrimaryCommand child lp (S n + index)
                               (match child with
                                | AppBarSeparator => Some 24%Z | _ => None end)) l).
    { apply imap_ext. intros i y _. cbn. rewrite Nat.add_succ_r. reflexivity. }
    rewrite Hext, Ht, Hk, Nat.add_0_r.
    repeat split. constructor; [split; reflexivity | exact Hf].
Qed.

(** X10: the bar renders no primary command when it is minimal and
    collapsed; otherwise it renders exactly the entries of
    [primaryCommands] that are buttons or separators, in their order
    (none for an omitted prop), with keys 0, 1, 2, ... counted after
    the filtering, each with the bar's [labelPosition], and separators
    alone with height 24. *)
Theorem renderPrimaryCommands_spec (c : Component) :
  let given := default [] (p_primaryCommands (React.props c)) in
  let hidden :=
    truthy_bool (p_isMinimal (React.props c))
    && negb (truthy_bool (currExpanded (React.state c))) in
  (hidden = true -> renderPrimaryCommands c = None) /\
  (hidden = false ->
   exists items,
     renderPrimaryCommands c = Some items /\
     map pc_type items = filter (λ child, recognized child = true) given /\
     Forall (λ child, recognized child = true) (map pc_type items) /\
     map pc_key items = seq 0 (length items) /\
     Forall (λ item,
               pc_labelPosition item = p_labelPosition (React.props c) /\
               pc_style_height item
                 = match pc_type item with
                   | AppBarSeparator => Some 24%Z | _ => None end)
            items).
Proof.
  cbn zeta. unfold renderPrimaryCommands. split; intros ->; [reflexivity|].
  eexists. split; [reflexivity|].
  destruct (cloned_types (p_labelPosition (React.props c))
              (filter (λ child, recognized child = true)
                 (default [] (p_primaryCommands (React.props c)))) 0)
    as (Ht & Hk & Hf).
  cbn [Nat.add] in Ht, Hk, Hf.
  split; [exact Ht|]. split.
  { rewrite Ht. apply Forall_forall. intros x Hx.
    apply list_elem_of_filter in Hx as [Hx _]. exact Hx. }
  split; [|exact Hf].
  rewrite Hk. f_equal. rewrite <- Ht at 1. apply length_map.
Qed.

Lemma renderPrimaryCommands_spec_witness :
  let c := construct
             (mkDataProps None None
                (Some [AppBarButton; OtherElement "span"; AppBarSeparator])
                None (Some LabelRight) None None None None) in
  (truthy_bool (p_isMinimal (React.props c))
   && negb (truthy_bool (currExpanded (React.state c))) = false) /\
  exists items,
    renderPrimaryCommands c = Some items /\
    map pc_type items = [AppBarButton; AppBarSeparator] /\
    map pc_key items = [0; 1].
Proof.
  intros c.
  assert (H : truthy_bool (p_isMinimal (React.props c))
              && negb (truthy_bool (currExpanded (React.state c))) = false)
    by reflexivity.
  split; [exact H|].
  destruct (renderPrimaryCommands_spec c) as (_ & Hs).
  destruct (Hs H) as (items & Hr & Ht & _ & Hk & _).
  exists items. split; [exact Hr|]. split; [exact Ht|].
  rewrite Hk. rewrite <- (length_map pc_type), Ht. reflexivity.
Defined.

(** ** Secondary commands *)

Lemma secondaryItem_node (t : ElementType) : itemNode (secondaryItem t) = t.
Proof. destruct t; reflexivity. Qed.

(** X11: a list view is rendered exactly when [secondaryCommands] is
    given, with one entry per command in the same order: nothing is
    filtered out.  A separator becomes a disabled row-direction entry
    without click handler; every other element, of a recognised type or
    not, becomes an enabled entry whose click handler is
    [toggleExpanded]. *)
Theorem renderSecondaryCommands_spec (c : Component) :
  (renderSecondaryCommands c = None <-> p_secondaryCommands (React.props c) = None) /\
  (forall l, p_secondaryCommands (React.props c) = Some l ->
   exists items,
     renderSecondaryCommands c = Some items /\
     map itemNode items = l /\
     Forall (λ item,
               match itemNode item with
               | AppBarSeparator =>
                   disable item = true /\ onClick item = None /\
                   directionRow item = true
               | _ => disable item = false /\ onClick item = Some ToggleExpanded
               end) items).
Proof.
  unfold renderSecondaryCommands. split.
  - destruct (p_secondaryCommands (React.props c)); split; congruence.
  - intros l ->. eexists. split; [reflexivity|]. split.
    + rewrite map_map. rewrite <- (map_id l) at 2.
      apply map_ext. apply secondaryItem_node.
    + apply Forall_forall. intros item Hin.
      apply list_elem_of_fmap in Hin as (t & -> & _).
      destruct t; repeat split; reflexivity.
Qed.

Lemma renderSecondaryCommands_spec_witness :
  let c := construct
             (mkDataProps None None None
                (Some [AppBarButton; OtherElement "span"; AppBarSeparator])
                None None None None None) in
  p_secondaryCommands (React.props c)
    = Some [AppBarButton; OtherElement "span"; AppBarSeparator] /\
  exists items,
    renderSecondaryCommands c = Some items /\
    map itemNode items = [AppBarButton; OtherElement "span"; AppBarSeparator].
Proof.
  intros c.
  assert (H : p_secondaryCommands (React.props c)
              = Some [AppBarButton; OtherElement "span"; AppBarSeparator])
    by reflexivity.
  split; [exact H|].
  destruct (renderSecondaryCommands_spec c) as (_ & Hs).
  destruct (Hs _ H) as (items & Hr & Hm & _).
  exists items. split; assumption.
Defined.

(** ** Toggling *)

Lemma toggle_settled (p : CommandBarProps) (cur : option bool) :
  step (Toggle NotBoolean) (React.mkInstance p (mkCommandBarState cur) [])
    = React.mkInstance p (mkCommandBarState (Some (negb (truthy_bool cur)))) [].
Proof. reflexivity. Qed.

(** X12: [n] clicks on the overflow button leave [currExpanded] with
    its starting truthiness when [n] is even and with the opposite one
    when [n] is odd; the props are never touched. *)
Theorem toggles_parity (p : CommandBarProps) (n : nat) : forall cur : option bool,
  let c := steps (toggles n) (React.mkInstance p (mkCommandBarState cur) []) in
  truthy_bool (currExpanded (React.state c)) = xorb (truthy_bool cur) (Nat.odd n) /\
  React.props c = p.
Proof.
  induction n as [|n IH]; intros cur; cbn zeta.
  - cbn. rewrite xorb_false_r. split; reflexivity.
  - change (steps (toggles (S n)) (React.mkInstance p (mkCommandBarState cur) []))
      with (steps (toggles n)
              (step (Toggle NotBoolean)
                 (React.mkInstance p (mkCommandBarState cur) []))).
    rewrite toggle_settled.
    destruct (IH (Some (negb (truthy_bool cur)))) as [-> ->].
    split; [|reflexivity].
    rewrite Nat.odd_succ, <- Nat.negb_odd. cbn [truthy_bool default].
    destruct (truthy_bool cur), (Nat.odd n); reflexivity.
Qed.

(** ** Heights *)

(** X13: the overflow button is as high as the bar; the panel of
    secondary commands is anchored at the bar's height, on the top edge
    for [verticalPosition = "top"] and on the bottom edge otherwise,
    never on both; it is opaque exactly when [currExpanded] is truthy;
    and with the same props an expanded bar is never lower than a
    collapsed one. *)
Theorem heights_coherent (c : Component) :
  let s := getStyles c in
  moreLegacy_height s = root_height s /\
  (if bool_decide (p_verticalPosition (React.props c) = Top)
   then secondaryCommands_top s = Some (root_height s) /\
        secondaryCommands_bottom s = None
   else secondaryCommands_bottom s = Some (root_height s) /\
        secondaryCommands_top s = None) /\
  secondaryCommands_opacity s
    = (if truthy_bool (currExpanded (React.state c)) then 1%Z else 0%Z) /\
  (forall q q',
     root_height
       (getStyles (React.mkInstance (React.props c) (mkCommandBarState (Some false)) q))
     <= root_height
       (getStyles (React.mkInstance (React.props c) (mkCommandBarState (Some true)) q')))%Z.
Proof.
  destruct c as [p [cur] q]. unfold getStyles, truthy_bool.
  cbn [React.props React.state currExpanded root_height
       moreLegacy_height secondaryCommands_top secondaryCommands_bottom
       secondaryCommands_opacity default].
  destruct (default false (p_isMinimal p)), (default false cur),
           (bool_decide (p_labelPosition p = LabelBottom)),
           (bool_decide (is_Some (p_primaryCommands p))),
           (bool_decide (p_verticalPosition p = Top));
    cbn; repeat split; intros; first [discriminate | reflexivity | lia].
Qed.

(** ** The title *)

(** X15: the title element is rendered exactly when [content] or
    [contentNode] is given; it shows [content] when that is a non-empty
    string and [contentNode] otherwise, so an empty [content] with no
    [contentNode] gives an empty title element. *)
Theorem renderContent_spec (c : Component) :
  let content := p_content (React.props c) in
  let contentNode := p_contentNode (React.props c) in
  (renderContent c = None <-> content = None /\ contentNode = None) /\
  (truthy_string content = true -> renderContent c = Some content) /\
  (truthy_string content = false -> content <> None \/ contentNode <> None ->
     renderContent c = Some contentNode) /\
  (content = Some "" -> contentNode = None -> renderContent c = Some None).
Proof.
  cbn zeta. unfold renderContent.
  destruct (p_content (React.props c)) as [s|], (p_contentNode (React.props c)) as [n|].
  - change (bool_decide (Some s ≠ None) || bool_decide (Some n ≠ None)) with true.
    split; [split; [discriminate | intros [H _]; discriminate H]|].
    split; [intros ->; reflexivity|].
    split; [intros -> _; reflexivity | intros _ H; discriminate H].
  - change (bool_decide (Some s ≠ None) || bool_decide (@None string ≠ None))
      with true.
    split; [split; [discriminate | intros [H _]; discriminate H]|].
    split; [intros ->; reflexivity|].
    split; [intros -> _; reflexivity | intros [= ->] _; reflexivity].
  - change (bool_decide (@None string ≠ None) || bool_decide (Some n ≠ None))
      with true.
    split; [split; [discriminate | intros [_ H]; discriminate H]|].
    split; [discriminate|].
    split; [reflexivity | discriminate].
  - change (bool_decide (@None string ≠ None) || bool_decide (@None string ≠ None))
      with false.
    split; [split; [split; reflexivity | reflexivity]|].
    split; [discriminate|].
    split; [intros _ [H | H]; contradiction | discriminate].
Qed.

Lemma renderContent_spec_witness :
  let c := construct (mkDataProps (Some "") None None None None None None None None) in
  p_content (React.props c) = Some "" /\ p_contentNode (React.props c) = None /\
  renderContent c = Some None.
Proof.
  intros c.
  assert (H1 : p_content (React.props c) = Some "") by reflexivity.
  assert (H2 : p_contentNode (React.props c) = None) by reflexivity.
  split; [exact H1|]. split; [exact H2|].
  destruct (renderContent_spec c) as (_ & _ & _ & He). exact (He H1 H2).
Defined.

End CommandBarExtra.

(* ===================================================================== *)
(** * Further properties of the Image widget *)
(* ===================================================================== *)

Module ImageExtra.
Import Js JsFacts Image ImageView ImageSpec.

Lemma placeholderOf_hides (a : Attributes) : showsImage (placeholderOf a) = false.
Proof.
  unfold placeholderOf. destruct (placeholder a) as [n|]; [|reflexivity].
  destruct (truthy_node (Some n)); reflexivity.
Qed.

Lemma render_failed (c : Component) :
  showEmptyImage (React.state c) = true ->
  render c
    = if truthy_bool (isLazyLoad (React.props c))
      then placeholderOf (attributes (React.props c))
      else Null.
Proof.
  intros H. unfold render. rewrite H, orb_true_r. reflexivity.
Qed.

(** X16: after a load failure an image never shows its picture again:
    whatever load failures and new props follow, also props with another
    [src], [render] returns [null] when [isLazyLoad] is falsy and
    otherwise the placeholder (the caller's [placeholder] node when that
    is truthy, else the [Placeholder] element built from the current
    attributes), never an [img], a [div] container or a lazy-load
    wrapper. *)
Theorem failed_image_stays_hidden (p : ImageProps) (before after : list Step) :
  let c := steps after (step LoadError (steps before (construct p))) in
  let a := attributes (React.props c) in
  render c
    = (if truthy_bool (isLazyLoad (React.props c))
       then match placeholder a with
            | Some n => if truthy_node (Some n) then CallerNode n else Placeholder a
            | None => Placeholder a
            end
       else Null) /\
  showsImage (render c) = false.
Proof.
  intros c a.
  assert (Hf : showEmptyImage (React.state c) = true).
  { unfold c. apply showEmptyImage_stable; [apply image_step_pending|].
    rewrite step_settled by (apply image_steps_pending; reflexivity).
    reflexivity. }
  rewrite (render_failed c Hf). split; [unfold placeholderOf; reflexivity|].
  destruct (truthy_bool _); [apply placeholderOf_hides | reflexivity].
Qed.

(** X17: for an image with a usable [src] and no failed load, lazy
    loading only wraps: the child of the [ReactLazyLoad] element is what
    the same props render with [isLazyLoad = false]; its placeholder is
    what the image renders after a failed load; [height] is the image's
    height; and, unlike [once], the options [scroll], [offset],
    [overflow], [resize] and [throttle] carry the caller's value, or
    [true], [0], [false], [false] and [60] when omitted, and [debounce]
    the caller's value or none. *)
Theorem lazy_load_wraps_plain_render (p : ImageProps) (s : ImageState) :
  truthy_string (src (attributes p)) = true ->
  showEmptyImage s = false ->
  default true (isLazyLoad p) = true ->
  exists lp,
    render (React.mkInstance (defaultProps p) s [])
      = ReactLazyLoad lp
          (render (React.mkInstance (defaultProps (with_isLazyLoad (Some false) p)) s [])) /\
    ll_placeholder lp
      = Some (render (React.mkInstance (defaultProps p) (mkImageState true) [])) /\
    ll_height lp = height (attributes p) /\
    ll_scroll lp = Some (default true (scroll p)) /\
    ll_offset lp = Some (default (num_of_Z 0) (offset p)) /\
    ll_overflow lp = Some (default false (overflow p)) /\
    ll_resize lp = Some (default false (resize p)) /\
    ll_throttle lp = Some (default (num_of_Z 60) (throttle p)) /\
    ll_debounce lp = debounce p.
Proof.
  intros Hs Hf Hl. unfold render; cbn. rewrite Hs, Hf, Hl; cbn.
  eexists. split; [reflexivity|]. cbn. rewrite ?orb_true_r.
  repeat split; reflexivity.
Qed.

Lemma lazy_load_wraps_plain_render_witness :
  let p := mkImageProps None None (Some true) None None None None None None
             (mkAttributes (Some "a.png") (Some (Fin 40)) None ∅) in
  truthy_string (src (attributes p)) = true /\
  exists lp,
    render (construct p) = ReactLazyLoad lp (Img (attributes p)) /\
    ll_height lp = Some (Fin 40).
Proof.
  intros p.
  assert (H : truthy_string (src (attributes p)) = true) by reflexivity.
  split; [exact H|].
  destruct (lazy_load_wraps_plain_render p (mkImageState false) H eq_refl eq_refl)
    as (lp & Hr & _ & Hh & _).
  exists lp. split; [exact Hr | exact Hh].
Defined.

(** X18: a [div] container is only ever rendered for a non-empty [src]
    (directly or inside the lazy-load wrapper), it carries the image's
    own attributes, and its [background] is the caller's
    [style.background] when there is one and otherwise the [url(...)]
    value built from that [src]; every other style property is the
    caller's. *)
Theorem div_container_background (c : Component) (a : Attributes) (st : object) :
  render c = Div a st \/ (exists lp, render c = ReactLazyLoad lp (Div a st)) ->
  a = attributes (React.props c) /\
  exists u,
    src a = Some u /\ u <> "" /\
    get st "background"
      = match style a !! "background" with
        | Some v => v
        | None => VString ("url(" ++ u ++ ") no-repeat center center / contain")
        end /\
    forall k, k <> "background" -> get st k = get (style a) k.
Proof.
  intros Hr.
  assert (Hd : truthy_string (src (attributes (React.props c))) = true /\
               ImageOrDiv (React.props c) = Div a st).
  { unfold render in Hr.
    destruct (truthy_string (src (attributes (React.props c)))); cbn [negb orb] in Hr.
    - split; [reflexivity|].
      destruct (showEmptyImage (React.state c)), (truthy_bool (isLazyLoad (React.props c)));
        destruct Hr as [Hr | [lp Hr]];
        try discriminate Hr;
        try (unfold placeholderOf in Hr;
             destruct (placeholder _); [destruct (truthy_node _)|]; discriminate Hr).
      all: first
        [ exact Hr
        | injection Hr as _ Hr; exact Hr
        | unfold ImageOrDiv in Hr;
          destruct (truthy_bool (useDivContainer _)); discriminate Hr ].
    - destruct (truthy_bool (isLazyLoad (React.props c)));
        destruct Hr as [Hr | [lp Hr]];
        try discriminate Hr;
        (unfold placeholderOf in Hr;
         destruct (placeholder _); [destruct (truthy_node _)|]; discriminate Hr). }
  destruct Hd as [Hs Hd]. unfold ImageOrDiv in Hd.
  destruct (truthy_bool (useDivContainer (React.props c))); [|discriminate Hd].
  injection Hd as <- <-. split; [reflexivity|].
  destruct (src (attributes (React.props c))) as [u|] eqn:Eu; [|discriminate Hs].
  exists u. split; [reflexivity|]. split.
  { intros ->. discriminate Hs. }
  split.
  - unfold get. rewrite lookup_spread.
    destruct (style (attributes (React.props c)) !! "background"); reflexivity.
  - intros k Hk. unfold get. rewrite lookup_spread.
    destruct (style (attributes (React.props c)) !! k); [reflexivity|].
    rewrite lookup_singleton_ne by congruence. reflexivity.
Qed.

Lemma div_container_background_witness :
  let p := mkImageProps (Some false) (Some true) None None None None None None None
             (mkAttributes (Some "a.png") None None ∅) in
  let st : object :=
    spread {[ "background" := VString (backgroundOf (Some "a.png")) ]} ∅ in
  render (construct p) = Div (attributes p) st /\
  get st "background" = VString "url(a.png) no-repeat center center / contain".
Proof.
  intros p st.
  assert (H : render (construct p) = Div (attributes p) st) by reflexivity.
  split; [exact H|].
  destruct (div_container_background (construct p) (attributes p) st (or_introl H))
    as (_ & u & Hu & _ & Hb & _).
  injection Hu as <-. exact Hb.
Defined.

Lemma failed_iff_LoadError (l : list Step) : forall c : Component,
  React.pending c = [] ->
  (showEmptyImage (React.state (steps l c)) = true <->
   showEmptyImage (React.state c) = true \/ LoadError ∈ l).
Proof.
  induction l as [|s l IH]; intros c Hp.
  - cbn. split; [intros H; left; exact H | intros [H | H]; [exact H | inversion H]].
  - change (steps (s :: l) c) with (steps l (step s c)).
    rewrite (IH (step s c) (image_step_pending s c)), (step_settled s c Hp).
    rewrite elem_of_cons. destruct s as [|p'].
    + split; [intros _; right; left; reflexivity | intros _; left; reflexivity].
    + split; [intros [H | H]; [left; exact H | right; right; exact H]|].
      intros [H | [H | H]]; [left; exact H | discriminate H | right; exact H].
Qed.

Lemma render_shows (c : Component) :
  showsImage (render c)
    = truthy_string (src (attributes (React.props c)))
      && negb (showEmptyImage (React.state c)).
Proof.
  unfold render.
  destruct (truthy_string (src (attributes (React.props c)))),
           (showEmptyImage (React.state c)); cbn [negb orb andb];
    destruct (truthy_bool (isLazyLoad (React.props c)));
    try reflexivity; try apply placeholderOf_hides.
  unfold ImageOrDiv. destruct (truthy_bool (useDivContainer _)); reflexivity.
Qed.

(** X19: a mounted image shows its picture (an [img], a [div]
    container or the lazy-load wrapper around one) exactly when its
    current [src] is a non-empty string and no load failure has occurred
    since it was constructed; receiving new props never by itself hides
    the picture of a non-empty [src]. *)
Theorem shows_image_iff (p : ImageProps) (history : list Step) :
  let c := steps history (construct p) in
  showsImage (render c) = true <->
  truthy_string (src (attributes (React.props c))) = true /\ LoadError ∉ history.
Proof.
  intros c. rewrite render_shows, andb_true_iff, negb_true_iff.
  pose proof (failed_iff_LoadError history (construct p) eq_refl) as Hf.
  fold c in Hf. cbn [construct React.state showEmptyImage] in Hf.
  split; intros [Hs Hn]; (split; [exact Hs|]).
  - intros Hin. rewrite (proj2 Hf (or_intror Hin)) in Hn. discriminate Hn.
  - destruct (showEmptyImage (React.state c)); [|reflexivity].
    destruct (proj1 Hf eq_refl) as [H | H]; [discriminate H | contradiction].
Qed.

Lemma shows_image_iff_witness :
  let p := mkImageProps (Some false) None None None None None None None None
             (mkAttributes (Some "a.png") None None ∅) in
  let history := [NewProps p; NewProps p] in
  (truthy_string (src (attributes (React.props (steps history (construct p))))) = true
   /\ LoadError ∉ history) /\
  showsImage (render (steps history (construct p))) = true.
Proof.
  intros p history.
  assert (H : truthy_string
                (src (attributes (React.props (steps history (construct p))))) = true
              /\ LoadError ∉ history).
  { split; [reflexivity|]. unfold history. rewrite !not_elem_of_cons.
    repeat split; try discriminate. apply not_elem_of_nil. }
  split; [exact H|].
  exact (proj2 (shows_image_iff p history) H).
Defined.

End ImageExtra.
